(** * The dask tutorial notebooks: the [fib] helper and the cell sequences

    The repository consists of Jupyter notebooks.  Two of them are modelled
    here: "Parallel and Distributed Machine Learning" and the schedulers
    notebook ("Threads, Processes, and the Global Interpreter Lock").  The
    only function the notebooks define themselves is [fib]; every other
    code-cell statement imports from, or calls into, scikit-learn, joblib,
    concurrent.futures, dask, the helper module pycon_utils, IPython or the
    Python builtins.

    Three layers are modelled:
    - [Fib]: the function [fib], over [Z] since Python integers are unbounded;
    - [Notebook]: the cells of the two notebooks, as the JSON files list them;
    - [Python]: the statements of the code cells, their reading as a syntax
      tree, which names they bind and use, and how a cell runs against an
      arbitrary runtime that stands for the libraries. *)

From Equations Require Import Equations.
From Stdlib Require Import ZArith List Lia Bool Ascii String.
Import ListNotations.

(** ** The function [fib]

<<
def fib(n):
    if n < 2:
        return n
    return fib(n - 2) + fib(n - 1)
>>
    The recursive calls are on [n - 2] and [n - 1], which are no subterms of
    [n]; the measure is [Z.to_nat n], which both calls decrease when
    [2 <= n]. *)

Module Fib.
Local Open Scope Z_scope.

Equations? fib (n : Z) : Z by wf (Z.to_nat n) lt :=
  fib n with Z_lt_dec n 2 => {
    | left _ := n;
    | right _ := fib (n - 2) + fib (n - 1) }.
Proof. all: lia. Qed.

(** The same body run with a bound on the depth of the call stack: every call
    of [fib] takes one frame, and [None] says that the frames ran out before
    the call returned.  As in Python, [fib(n - 2)] is evaluated before
    [fib(n - 1)]. *)
Fixpoint fib_fuel (depth : nat) (n : Z) : option Z :=
  match depth with
  | O => None
  | S d =>
      if n <? 2 then Some n
      else match fib_fuel d (n - 2) with
           | None => None
           | Some a =>
               match fib_fuel d (n - 1) with
               | None => None
               | Some b => Some (a + b)
               end
           end
  end.

(** The number of stack frames the call [fib(n)] needs. *)
Definition frames (n : Z) : nat := Z.to_nat (Z.max 1 n).

(** The reference Fibonacci sequence the docstring promises: F(0) = 0,
    F(1) = 1, F(k+2) = F(k) + F(k+1), by structural recursion on the index. *)
Fixpoint fibonacci (k : nat) : Z :=
  match k with
  | O => 0
  | S j => match j with
           | O => 1
           | S i => fibonacci i + fibonacci j
           end
  end.

End Fib.

(** ** Text helpers: how a line of a cell is read *)

Module Text.
Local Open Scope string_scope.

(** The double quote character, which a string literal cannot hold. *)
Definition dq : string := String (ascii_of_nat 34) EmptyString.

Fixpoint lstrip (s : string) : string :=
  match s with
  | String " " r => lstrip r
  | _ => s
  end.

Definition is_ident_char (c : ascii) : bool :=
  let n := nat_of_ascii c in
  ((97 <=? n) && (n <=? 122) || (65 <=? n) && (n <=? 90)
   || (48 <=? n) && (n <=? 57) || (n =? 95))%nat.

(** The longest identifier a string starts with (empty when there is none). *)
Fixpoint take_ident (s : string) : string :=
  match s with
  | String c r => if is_ident_char c then String c (take_ident r) else ""
  | EmptyString => ""
  end.

(** The first word of a line: the identifier after its indentation. *)
Definition first_word (l : string) : string := take_ident (lstrip l).

(** [drop_prefix p s] is what follows [p] in [s], when [s] starts with [p]. *)
Fixpoint drop_prefix (p s : string) : option string :=
  match p, s with
  | EmptyString, _ => Some s
  | String a p', String b s' => if Ascii.eqb a b then drop_prefix p' s' else None
  | String _ _, EmptyString => None
  end.

(** [split_at sep s]: the text before and after the first [sep] in [s]. *)
Fixpoint split_at (sep s : string) : option (string * string) :=
  match drop_prefix sep s with
  | Some r => Some ("", r)
  | None =>
      match s with
      | EmptyString => None
      | String c r =>
          match split_at sep r with
          | Some (a, b) => Some (String c a, b)
          | None => None
          end
      end
  end.

Definition contains (needle hay : string) : bool :=
  match split_at needle hay with Some _ => true | None => false end.

(** The pieces of [s] between the occurrences of the character [c]. *)
Fixpoint split_char (c : ascii) (s : string) : list string :=
  match s with
  | EmptyString => [""]
  | String x r =>
      if Ascii.eqb x c then "" :: split_char c r
      else match split_char c r with
           | h :: t => String x h :: t
           | [] => [String x ""]
           end
  end.

Definition mem (x : string) (l : list string) : bool :=
  existsb (String.eqb x) l.

End Text.

(** ** The notebooks as files: cells with a type and source lines *)

Module Notebook.
Import Text.
Local Open Scope string_scope.

Variant cell_kind := markdown | code.

(** A cell of the notebook file.  [source] is the text of the cell split at
    its newline characters.  In both files every cell has empty metadata, and
    every code cell has no execution count and no outputs, so those fields
    carry nothing and are left out. *)
Record cell := Cell { cell_type : cell_kind; source : list string }.

Definition notebook := list cell.

Definition is_code (c : cell) : bool :=
  match cell_type c with code => true | markdown => false end.

Definition is_markdown (c : cell) : bool := negb (is_code c).

Definition code_cells (nb : notebook) : list cell := filter is_code nb.

(** The notebook 07-machine-learning.ipynb, Parallel and Distributed Machine
    Learning, cell by cell. *)
Definition machine_learning : notebook :=
 [
  Cell markdown
    ["# Parallel and Distributed Machine Learning";
     "";
     "[Dask-ML](https://dask-ml.readthedocs.io) has resources for parallel and distributed machine learning."];
  Cell markdown
    ["## Types of Scaling";
     "";
     "There are a couple of distinct scaling problems you might face.";
     "The scaling strategy depends on which problem you're facing.";
     "";
     "1. Large Models: Data fits in RAM, but training takes too long. Many hyperparameter combinations, a large ensemble of many models, etc.";
     "2. Large Datasets: Data is larger than RAM, and sampling isn't an option.";
     "";
     "![](static/ml-dimensions-color.png)"];
  Cell markdown
    ["* For in-memory problems, just use scikit-learn (or your favorite ML library).";
     "* For large models, use `dask_ml.joblib` and your favorite scikit-learn estimator";
     "* For large datasets, use `dask_ml` estimators"];
  Cell markdown
    ["## Scikit-Learn in 5 Minutes";
     "";
     "Scikit-Learn has a nice, consistent API.";
     "";
     "1. You instantiate an `Estimator` (e.g. `LinearRegression`, `RandomForestClassifier`, etc.). All of the models *hyperparameters* (user-specified parameters, not the ones learned by the estimator) are passed to the estimator when it's created.";
     "2. You call `estimator.fit(X, y)` to train the estimator.";
     "3. Use `estimator` to inspect attributes, make predictions, etc. "];
  Cell markdown
    ["Let's generate some random data."];
  Cell code
    ["from sklearn.datasets import make_classification";
     "";
     "X, y = make_classification(n_samples=10000, n_features=4, random_state=0)";
     "X[:8]"];
  Cell code
    ["y[:8]"];
  Cell markdown
    ["We'll fit a LogisitcRegression."];
  Cell code
    ["from sklearn.svm import SVC"];
  Cell markdown
    ["Create the estimator and fit it."];
  Cell code
    ["estimator = SVC(random_state=0)";
     "estimator.fit(X, y)"];
  Cell markdown
    ["Inspect the learned attributes."];
  Cell code
    ["estimator.support_vectors_[:4]"];
  Cell markdown
    ["Check the accuracy."];
  Cell code
    ["estimator.score(X, y)"];
  Cell markdown
    ["## Hyperparameters"];
  Cell markdown
    ["Most models have *hyperparameters*. They affect the fit, but specified up front, instead of learned during training."];
  Cell code
    ["estimator = SVC(C=0.00001, shrinking=False, random_state=0)";
     "estimator.fit(X, y)";
     "estimator.support_vectors_[:4]"];
  Cell code
    ["estimator.score(X, y)"];
  Cell markdown
    ["## Hyperparameter Optimization";
     "";
     "There are a few ways to learn the best *hyper*parameters while training. One is `GridSearchCV`.";
     "As the name implies, this does a brute-force search over a grid of hyperparameter combinations."];
  Cell code
    ["from sklearn.model_selection import GridSearchCV"];
  Cell code
    ["%%time";
     "estimator = SVC(gamma='auto', random_state=0, probability=True)";
     "param_grid = {";
     "    'C': [0.001, 10.0],";
     "    'kernel': ['rbf', 'poly'],";
     "}";
     "";
     "grid_search = GridSearchCV(estimator, param_grid, verbose=2, cv=2)";
     "grid_search.fit(X, y)"];
  Cell markdown
    ["## Single-machine parallelism with scikit-learn";
     "";
     "![](static/sklearn-parallel.png)";
     "";
     "Scikit-Learn has nice *single-machine* parallelism, via Joblib.";
     "Any scikit-learn estimator that can operate in parallel exposes an `n_jobs` keyword.";
     "This controls the number of CPU cores that will be used."];
  Cell code
    ["%%time";
     "grid_search = GridSearchCV(estimator, param_grid, verbose=2, cv=2, n_jobs=-1)";
     "grid_search.fit(X, y)"];
  Cell markdown
    ["## Multi-machine parallelism with Dask";
     "";
     "![](static/sklearn-parallel-dask.png)";
     "";
     "Dask can talk to scikit-learn (via joblib) so that your *cluster* is used to train a model. "];
  Cell code
    ["from pycon_utils import make_cluster";
     "import dask_ml.joblib";
     "from dask.distributed import Client";
     "";
     "from sklearn.externals import joblib"];
  Cell code
    ["cluster = make_cluster()";
     "client = Client(cluster)"];
  Cell code
    ["client"];
  Cell code
    ["client = Client()";
     "client"];
  Cell code
    ["%%time";
     "";
     "with joblib.parallel_backend('dask', scatter=[X, y]):";
     "    grid_search.fit(X, y)"];
  Cell code
    ["client.cluster.__class__"];
  Cell markdown
    ["Using a cluster for this small of a problem is overkill. The overhead of sending the data to the workers and collecting the results outweighed the performance gain. Let's try it on a larger problem (more hyperparameters)."];
  Cell code
    ["param_grid = {";
     "    'C': [0.001, 0.1, 1.0, 2.5, 5, 10.0],";
     "    'kernel': ['rbf', 'poly', 'linear'],";
     "    'shrinking': [True, False],";
     "}";
     "";
     "grid_search = GridSearchCV(estimator, param_grid, verbose=2, cv=5, n_jobs=-1)";
     "";
     ("with joblib.parallel_backend(" ++ dq ++ "dask" ++ dq ++ ", scatter=[X, y]):")%string;
     "    grid_search.fit(X, y)"]
 ].

(** The notebook that follows it in the same source file, on threads,
    processes and schedulers (its solution file is named
    04-schedulers-fib-process.py), cell by cell. *)
Definition schedulers : notebook :=
 [
  Cell markdown
    [("<img src=" ++ dq ++ "http://dask.readthedocs.io/en/latest/_images/dask_horizontal.svg" ++ dq)%string;
     ("     align=" ++ dq ++ "right" ++ dq)%string;
     ("     width=" ++ dq ++ "30%" ++ dq)%string;
     ("     alt=" ++ dq ++ "Dask logo\" ++ dq ++ ">")%string;
     "";
     "";
     "## Threads, Processes, and the Global Interpreter Lock";
     "";
     "There are two main ways to achieve single-machine parallelism in python: multiple threads or multiple processes.";
     "The best choice depends on the type of work you're doing and Python's GIL (global interpreter lock).";
     "";
     "The GIL is an implementation detail of CPython. It's a lock deep inside your python process that limits things so *only one thread in your process can be running python code at once*. Let's see an example, using `concurrent.futures` to compute the fibonnaci numbers in parallel."];
  Cell code
    ["import concurrent.futures";
     "";
     "def fib(n):";
     ("    " ++ dq ++ dq ++ dq ++ "Compute the `n`th fibonnaci number.")%string;
     "    ";
     "    This is a deliberatly slow, CPU intensive implemenation.";
     ("    " ++ dq ++ dq ++ dq)%string;
     "    if n < 2:";
     "        return n";
     "    return fib(n - 2) + fib(n - 1)"];
  Cell code
    ["%time fib(34)"];
  Cell markdown
    ["One `fib(34)` takes my machine about 2 seconds. Computing it 4 time should then take about 8 seconds."];
  Cell code
    ["results = map(fib, [34, 34, 34, 34])";
     "%time _ = list(results)"];
  Cell markdown
    ["Let's compute it in parallel. This is embarassingly parallel, so with 4 threads we *should* be back down to 2 seconds again."];
  Cell code
    ["thread_pool = concurrent.futures.ThreadPoolExecutor(max_workers=4)";
     "";
     "results = thread_pool.map(fib, [34, 34, 34, 34])";
     "%time _ = list(results)"];
  Cell markdown
    ["It's actually *slower*! `concurrent.futures` (and Dask) make it easy to swap the compute backend between threads and processes."];
  Cell markdown
    ["## Exercise: Parallelize `fib` with Processes";
     "";
     "Use a `concurrent.futures.ProcessPoolExecutor` to achieve the same task. Time how long it take.";
     "See https://docs.python.org/3/library/concurrent.futures.html#concurrent.futures.ProcessPoolExecutor, which has the same API as our `ThreadPoolExecutor`."];
  Cell code
    ["# Your solution";
     ""];
  Cell code
    ["%load solutions/04-schedulers-fib-process.py"];
  Cell markdown
    ["So, why use threads at all, if they can't actually run Python code in parallel? Becuase much of the code you're running isn't Python code. The performance-sennsitive parts of libraries like NumPy and Pandas are written in C or Cython. Wherever possible, these libraries release the GIL. The standard library does this in places too, like when you make an HTTP request.";
     "";
     "When the GIL isn't a concern (NumPy and pandas), we tend to prefer threads to avoid data serialization.";
     "To do an operation on a pandas DataFrame in multiple processes, the data has to be serialized (using e.g. pickle) in  the first process and deserialized in the second process. This takes time and memory. Threads don't have serialization overhead.";
     "";
     "David Beazley has some nice materials on the GIL: http://www.dabeaz.com/GIL/"];
  Cell markdown
    ["# Schedulers";
     "";
     "In the previous notebooks, we used `dask.delayed` and `dask.dataframe` to parallelize computations.";
     "These work by building a *task graph* instead of executing immediately.";
     "Each *task* represents some function to call on some data, and the full *graph* is the relationship between all the tasks.";
     "";
     "When we wanted the actual result, we called `compute`, which handed the task graph off to a *scheduler*.";
     "";
     "**Schedulers are responsible for running a task graph and producing a result**.";
     "";
     "![](https://raw.githubusercontent.com/dask/dask-org/master/images/grid_search_schedule.gif)"];
  Cell markdown
    ["Dask includes several schedulers";
     "";
     "Scheduler | Parallelism | Use Case";
     "--------- | ----------- | ---------";
     "threaded  | Local thread pool | Numeric, GIL-releasing code";
     "multiprocessing | Local process pool | GIL holding code";
     "local           | Single main thread | Debugging";
     "distributed     | Multiple machines  | Large problems";
     "";
     "In this section we first talk about changing schedulers.  Then we use the `dask.distributed` scheduler in more depth."];
  Cell markdown
    ["### Local Schedulers";
     "";
     "Dask separates computation description (task graphs) from execution (schedulers). This allows you to write code once, and run it locally or scale it out across a cluster.";
     "";
     "In each case we change the scheduler used in a few different ways:";
     "";
     "- By providing a `get=` keyword argument to `compute`:";
     "";
     "```python";
     "total.compute(get=dask.multiprocessing.get)";
     "# or ";
     "dask.compute(a, b, get=dask.multiprocessing.get)";
     "```";
     "";
     "- Using `dask.set_options`:";
     "";
     "```python";
     "# Use multiprocessing in this block";
     "with dask.set_options(get=dask.multiprocessing.get):";
     "    total.compute()";
     "# Use multiprocessing globally";
     "dask.set_options(get=dask.multiprocessing.get)";
     "```";
     "";
     "Here we repeat a simple dataframe computation from the previous section using the different schedulers:"];
  Cell code
    ["import dask ";
     "import dask.multiprocessing";
     "import dask.dataframe as dd";
     "import pandas as pd";
     "from glob import glob";
     "import os"];
  Cell code
    ["df = dd.read_csv(os.path.join('data', 'nycflights', '*.csv'),";
     "                 parse_dates={'Date': [0, 1, 2]},";
     "                 dtype={'TailNum': object,";
     "                        'CRSElapsedTime': float,";
     "                        'Cancelled': bool})";
     "";
     "# Maximum non-cancelled delay";
     "largest_delay = df[~df.Cancelled].DepDelay.max()"];
  Cell code
    ["%time _ = largest_delay.compute()  # this uses threads by default"];
  Cell code
    ["%time _ = largest_delay.compute(get=dask.multiprocessing.get)  # this uses processes"];
  Cell code
    ["%time _ = largest_delay.compute(get=dask.get)  # This uses a single thread"];
  Cell markdown
    ["By default the threaded and multiprocessing schedulers use the same number of workers as cores. You can change this using the `num_workers` keyword in the same way that you specified `get` above:";
     "";
     "```";
     "largest_delay.compute(get=dask.multiprocessing.get, num_workers=2)";
     "```";
     "";
     "To see how many cores you have on your computer, you can use `multiprocessing.cpu_count`"];
  Cell code
    ["from multiprocessing import cpu_count";
     "cpu_count()"];
  Cell markdown
    ["### Some Questions to Consider:";
     "";
     "- How much speedup is possible for this task (hint, look at the graph).";
     "- Given how many cores are on this machine, how much faster could the parallel schedulers be than the single-threaded scheduler.";
     "- How much faster was using threads over a single thread? Why does this differ from the optimal speedup?";
     "- Why is the multiprocessing scheduler so much slower here?"];
  Cell markdown
    ["---"];
  Cell markdown
    ["## In what cases would you want to use one scheduler over another?";
     "";
     "http://dask.pydata.org/en/latest/scheduler-choice.html"];
  Cell markdown
    ["---"];
  Cell markdown
    ["## Profiling";
     "";
     "*You should skip this section if you are running low on time*.";
     "";
     "The synchronous scheduler is particularly valuable for debugging and profiling.  ";
     "";
     "For example, the IPython `%%prun` magic gives us profiling information about which functions take up the most time in our computation.  Try this magic on the computation above with different schedulers.  How informative is this magic when running parallel code?"];
  Cell code
    ["%prun -l 30 _ = largest_delay.compute(get=dask.threaded.get)"];
  Cell code
    ["%prun -l 30 _ = largest_delay.compute(get=dask.get)"];
  Cell markdown
    ["To aid in profiling parallel execution, dask provides several [`diagnostics`](http://dask.pydata.org/en/latest/diagnostics.html) for measuring and visualizing performance. These are useful for seeing bottlenecks in the *parallel* computation, whereas the above `prun` is useful for seeing bottlenecks in individual *tasks*."];
  Cell code
    ["from dask.diagnostics import Profiler, ResourceProfiler, visualize";
     "";
     "with Profiler() as p, ResourceProfiler(0.25) as r:";
     "    largest_delay.compute()";
     "    ";
     "visualize([r, p]);"];
  Cell markdown
    ["From the plot above, we can see that while tasks are running concurrently, due to GIL effects we're only achieving parallelism during early parts of `pd.read_csv` (mostly the byte operations).";
     "";
     "";
     "*It should be noted that the `dask.diagnostics` module is only useful when profiling on a single machine. The `dask.distributed` scheduler has its own set of diagnostics..*";
     "";
     "See Jim's talk at SciPy 2017 for more: https://www.youtube.com/watch?v=JoK8V2eWFPE"];
  Cell markdown
    ["---"];
  Cell markdown
    ["## Distributed Scheduler";
     "";
     "The `dask.distributed` system is composed of a single centralized scheduler and several worker processes.  We can either set these up manually as command line processes or have Dask set them up for us from the notebook.  ";
     "";
     "";
     "#### Automatically setup a local cluster";
     "";
     "Starting a single scheduler and worker on the local machine is a common case. Dask will set up a local cluster for you if you provide no scheduler address to `Client`:";
     "";
     "```python";
     "from dask.distributed import Client";
     "client = Client()";
     "```";
     "";
     "If you choose this approach then there is no need to set up a `dask-scheduler` or `dask-worker` process as described below.";
     "";
     "";
     "#### Other ways to setup a cluster";
     "";
     "You can find more information at the following documentation pages:";
     "";
     "- [Quickstart](http://distributed.readthedocs.io/en/latest/quickstart.html)";
     "- [Many Ways to Setup](http://dask.pydata.org/en/latest/setup.html)"];
  Cell markdown
    ["## Using a local cluster";
     "";
     "As mentioned above, the multiprocessing scheduler can be inefficient for complicated workflows. The distributed scheduler doesn't have this downside, and works fine locally. This makes it often a good replacement for the multiprocessing scheduler, even when working on a single machine.";
     "";
     "Here we startup a local cluster, and use it to repeat the same dataframe computation as done above:"];
  Cell code
    ["from dask.distributed import Client";
     "";
     "# Setup a local cluster.";
     "# By default this sets up 1 worker per core";
     "client = Client()";
     "client"];
  Cell markdown
    ["Be sure to click the `Dashboard` link to open up the diagnostics dashboard."];
  Cell code
    ["%time _ = largest_delay.compute(get=client.get)"];
  Cell markdown
    ["#### Some Questions to Consider";
     "";
     "- How does this compare to the optimal parallel speedup?";
     "- Why is this faster than the threaded scheduler?"];
  Cell markdown
    ["### Client takes over by default";
     "";
     "Actually, we didn't need to add `get=client.get`.  The distributed scheduler takes over as the default scheduler for all collections when the Client is created:"];
  Cell code
    ["%time _ = largest_delay.compute()  # This used to use threads by default, now it uses dask.distributed"];
  Cell markdown
    ["---"];
  Cell markdown
    ["### Exercise";
     "";
     "Run the following computations while looking at the diagnostics page. In each case what is taking the most time?"];
  Cell code
    ["# Number of flights";
     "_ = len(df)"];
  Cell code
    ["# Number of non-cancelled flights";
     "_ = len(df[~df.Cancelled])"];
  Cell code
    ["# Number of non-cancelled flights per-airport";
     "_ = df[~df.Cancelled].groupby('Origin').Origin.count().compute()"];
  Cell code
    ["# Average departure delay from each airport?";
     "_ = df[~df.Cancelled].groupby('Origin').DepDelay.mean().compute()"];
  Cell code
    ["# Average departure delay per day-of-week";
     "_ = df.groupby(df.Date.dt.dayofweek).DepDelay.mean().compute()"];
  Cell markdown
    ["---"];
  Cell markdown
    ["### New API";
     "";
     "The distributed scheduler is more sophisticated than the single machine schedulers.  It comes with more functions to manage data, computing in the background, and more.  The distributed scheduler also has entirely separate documentation";
     "";
     "-  http://distributed.readthedocs.io/en/latest/";
     "-  http://distributed.readthedocs.io/en/latest/api.html"]
 ].

(** Both notebooks of the repository. *)
Definition notebooks : list notebook := [machine_learning; schedulers].

(** *** Shape of the cell sequence *)

(** The pattern the prose describes: every code cell comes right after a
    markdown cell. *)
Definition explained_immediately (nb : notebook) : Prop :=
  forall i c, nth_error nb i = Some c -> cell_type c = code ->
    exists j m, i = S j /\ nth_error nb j = Some m /\ cell_type m = markdown.

(** [runs_within bound run cs]: reading [cs] from left to right, where [run]
    is the number of code cells since the last markdown cell ([None] before
    the first markdown cell), no code cell comes before a markdown cell and no
    run of code cells is longer than [bound]. *)
Fixpoint runs_within (bound : nat) (run : option nat) (cs : list cell) : bool :=
  match cs with
  | [] => true
  | c :: rest =>
      match cell_type c with
      | markdown => runs_within bound (Some 0) rest
      | code =>
          match run with
          | None => false
          | Some r => (S r <=? bound)%nat && runs_within bound (Some (S r)) rest
          end
      end
  end.

(** A code cell with all the lines [ls] among its source lines. *)
Definition has_lines (ls : list string) (c : cell) : bool :=
  is_code c && forallb (fun l => mem l (source c)) ls.

Definition some_code_cell_has (nb : notebook) (ls : list string) : bool :=
  existsb (has_lines ls) nb.

(** Some code cell of [nb] has all the lines [ls]. *)
Definition demonstrates (nb : notebook) (ls : list string) : Prop :=
  exists c, In c nb /\ cell_type c = code /\ forall l, In l ls -> In l (source c).

(** A markdown cell one of whose lines contains [needle]. *)
Definition markdown_mentions (needle : string) (c : cell) : bool :=
  is_markdown c && existsb (contains needle) (source c).

(** *** Lexical scans of the code cells *)

(** All source lines of the code cells of a notebook. *)
Definition code_lines (nb : notebook) : list string :=
  flat_map source (code_cells nb).

(** The names that follow the keyword [kw] at the start of a line
    ([def] and [class] statements). *)
Definition declared (kw : string) (nb : notebook) : list string :=
  flat_map
    (fun l =>
       if String.eqb (first_word l) kw
       then match drop_prefix kw (lstrip l) with
            | Some r => [first_word r]
            | None => []
            end
       else [])
    (code_lines nb).

(** The statements with which Python code handles, raises or retries:
    exception handlers and loops. *)
Definition handler_keywords : list string :=
  ["try"; "except"; "finally"; "raise"; "while"; "for"].

Definition opens_handler (l : string) : bool :=
  mem (first_word l) handler_keywords.

End Notebook.

(** ** The code cells as Python statements *)

Module Python.
Import Text Notebook.
Local Open Scope string_scope.

(** The statements that occur in the code cells.  Text that the model does
    not look into is kept as it is written: the right-hand side of an
    assignment, an expression, the body of a [def].  [StmtMagic] is an
    IPython line magic that runs a statement ([%time], [%prun]); [LineMagic]
    is one with a plain argument ([%load]).  The grammar has no [try], no
    [raise] and no loop. *)
#[warnings="-register-all"]
Inductive stmt :=
| Blank
| Comment (text : string)
| Import (line : string)
| Assign (targets rhs : string) (continuation : list string)
| Expr (e : string)
| LineMagic (name arg : string)
| StmtMagic (name options : string) (st : stmt)
| Def (name params : string) (body : list string)
| With (items : list string) (body : list stmt).

(** A code cell: an optional IPython cell magic on its first line (it
    receives the rest of the cell), then statements. *)
Record parsed_cell := Parsed { cell_magic : option string; body : list stmt }.

Fixpoint join (sep : string) (l : list string) : string :=
  match l with
  | [] => ""
  | [x] => x
  | x :: rest => x ++ sep ++ join sep rest
  end.

(** The source lines of a statement at indentation [ind]. *)
Fixpoint unparse (ind : string) (st : stmt) : list string :=
  match st with
  | Blank => [ind]
  | Comment text => [ind ++ "#" ++ text]
  | Import line => [ind ++ line]
  | Assign targets rhs continuation =>
      (ind ++ targets ++ " = " ++ rhs) :: continuation
  | Expr e => [ind ++ e]
  | LineMagic name arg => [ind ++ "%" ++ name ++ " " ++ arg]
  | StmtMagic name options st =>
      match unparse "" st with
      | [] => [ind ++ "%" ++ name ++ " " ++ options]
      | l :: rest => (ind ++ "%" ++ name ++ " " ++ options ++ l) :: rest
      end
  | Def name params body =>
      (ind ++ "def " ++ name ++ "(" ++ params ++ "):") :: map (append ind) body
  | With items body =>
      (ind ++ "with " ++ join ", " items ++ ":")
        :: flat_map (unparse (ind ++ "    ")) body
  end.

Definition unparse_cell (p : parsed_cell) : list string :=
  List.app
    match cell_magic p with
    | Some m => ["%%" ++ m]
    | None => []
    end
    (flat_map (unparse "") (body p)).

(** The words that open a statement of their own in Python. *)
Definition statement_keywords : list string :=
  ["import"; "from"; "def"; "class"; "with"; "if"; "elif"; "else"; "for";
   "while"; "try"; "except"; "finally"; "raise"; "return"; "assert"; "del";
   "pass"; "global"; "nonlocal"; "yield"; "break"; "continue"; "async";
   "await"; "lambda"].

(** A line that starts at the margin with something other than a comment
    or a magic. *)
Definition plain_start (l : string) : bool :=
  match l with
  | EmptyString => false
  | String c _ =>
      negb (Ascii.eqb c " " || Ascii.eqb c "#" || Ascii.eqb c "%")%bool
  end.

(** A statement is filed under the right constructor: an import starts
    with [import] or [from]; an assignment or an expression statement starts
    at the margin and with no statement keyword. *)
Definition classified (st : stmt) : bool :=
  match st with
  | Import line =>
      plain_start line && mem (first_word line) ["import"; "from"]
  | Assign targets _ _ =>
      plain_start targets && negb (mem (first_word targets) statement_keywords)
  | Expr e => plain_start e && negb (mem (first_word e) statement_keywords)
  | _ => true
  end.

(** The code cells of [machine_learning], in order, read as statements. *)
Definition machine_learning_code : list parsed_cell :=
 [
  Parsed None
    [Import "from sklearn.datasets import make_classification";
     Blank;
     Assign "X, y" "make_classification(n_samples=10000, n_features=4, random_state=0)"
        [];
     Expr "X[:8]"];
  Parsed None
    [Expr "y[:8]"];
  Parsed None
    [Import "from sklearn.svm import SVC"];
  Parsed None
    [Assign "estimator" "SVC(random_state=0)"
        [];
     Expr "estimator.fit(X, y)"];
  Parsed None
    [Expr "estimator.support_vectors_[:4]"];
  Parsed None
    [Expr "estimator.score(X, y)"];
  Parsed None
    [Assign "estimator" "SVC(C=0.00001, shrinking=False, random_state=0)"
        [];
     Expr "estimator.fit(X, y)";
     Expr "estimator.support_vectors_[:4]"];
  Parsed None
    [Expr "estimator.score(X, y)"];
  Parsed None
    [Import "from sklearn.model_selection import GridSearchCV"];
  Parsed (Some "time")
    [Assign "estimator" "SVC(gamma='auto', random_state=0, probability=True)"
        [];
     Assign "param_grid" "{"
        ["    'C': [0.001, 10.0],";
         "    'kernel': ['rbf', 'poly'],";
         "}"];
     Blank;
     Assign "grid_search" "GridSearchCV(estimator, param_grid, verbose=2, cv=2)"
        [];
     Expr "grid_search.fit(X, y)"];
  Parsed (Some "time")
    [Assign "grid_search" "GridSearchCV(estimator, param_grid, verbose=2, cv=2, n_jobs=-1)"
        [];
     Expr "grid_search.fit(X, y)"];
  Parsed None
    [Import "from pycon_utils import make_cluster";
     Import "import dask_ml.joblib";
     Import "from dask.distributed import Client";
     Blank;
     Import "from sklearn.externals import joblib"];
  Parsed None
    [Assign "cluster" "make_cluster()"
        [];
     Assign "client" "Client(cluster)"
        []];
  Parsed None
    [Expr "client"];
  Parsed None
    [Assign "client" "Client()"
        [];
     Expr "client"];
  Parsed (Some "time")
    [Blank;
     With ["joblib.parallel_backend('dask', scatter=[X, y])"]
        [Expr "grid_search.fit(X, y)"]];
  Parsed None
    [Expr "client.cluster.__class__"];
  Parsed None
    [Assign "param_grid" "{"
        ["    'C': [0.001, 0.1, 1.0, 2.5, 5, 10.0],";
         "    'kernel': ['rbf', 'poly', 'linear'],";
         "    'shrinking': [True, False],";
         "}"];
     Blank;
     Assign "grid_search" "GridSearchCV(estimator, param_grid, verbose=2, cv=5, n_jobs=-1)"
        [];
     Blank;
     With [("joblib.parallel_backend(" ++ dq ++ "dask" ++ dq ++ ", scatter=[X, y])")%string]
        [Expr "grid_search.fit(X, y)"]]
 ].

(** The code cells of [schedulers], in order, read as statements. *)
Definition schedulers_code : list parsed_cell :=
 [
  Parsed None
    [Import "import concurrent.futures";
     Blank;
     Def "fib" "n"
        [("    " ++ dq ++ dq ++ dq ++ "Compute the `n`th fibonnaci number.")%string;
         "    ";
         "    This is a deliberatly slow, CPU intensive implemenation.";
         ("    " ++ dq ++ dq ++ dq)%string;
         "    if n < 2:";
         "        return n";
         "    return fib(n - 2) + fib(n - 1)"]];
  Parsed None
    [StmtMagic "time" ""
        (Expr "fib(34)")];
  Parsed None
    [Assign "results" "map(fib, [34, 34, 34, 34])"
        [];
     StmtMagic "time" ""
        (Assign "_" "list(results)" [])];
  Parsed None
    [Assign "thread_pool" "concurrent.futures.ThreadPoolExecutor(max_workers=4)"
        [];
     Blank;
     Assign "results" "thread_pool.map(fib, [34, 34, 34, 34])"
        [];
     StmtMagic "time" ""
        (Assign "_" "list(results)" [])];
  Parsed None
    [Comment " Your solution";
     Blank];
  Parsed None
    [LineMagic "load" "solutions/04-schedulers-fib-process.py"];
  Parsed None
    [Import "import dask ";
     Import "import dask.multiprocessing";
     Import "import dask.dataframe as dd";
     Import "import pandas as pd";
     Import "from glob import glob";
     Import "import os"];
  Parsed None
    [Assign "df" "dd.read_csv(os.path.join('data', 'nycflights', '*.csv'),"
        ["                 parse_dates={'Date': [0, 1, 2]},";
         "                 dtype={'TailNum': object,";
         "                        'CRSElapsedTime': float,";
         "                        'Cancelled': bool})"];
     Blank;
     Comment " Maximum non-cancelled delay";
     Assign "largest_delay" "df[~df.Cancelled].DepDelay.max()"
        []];
  Parsed None
    [StmtMagic "time" ""
        (Assign "_" "largest_delay.compute()  # this uses threads by default" [])];
  Parsed None
    [StmtMagic "time" ""
        (Assign "_" "largest_delay.compute(get=dask.multiprocessing.get)  # this uses processes" [])];
  Parsed None
    [StmtMagic "time" ""
        (Assign "_" "largest_delay.compute(get=dask.get)  # This uses a single thread" [])];
  Parsed None
    [Import "from multiprocessing import cpu_count";
     Expr "cpu_count()"];
  Parsed None
    [StmtMagic "prun" "-l 30 "
        (Assign "_" "largest_delay.compute(get=dask.threaded.get)" [])];
  Parsed None
    [StmtMagic "prun" "-l 30 "
        (Assign "_" "largest_delay.compute(get=dask.get)" [])];
  Parsed None
    [Import "from dask.diagnostics import Profiler, ResourceProfiler, visualize";
     Blank;
     With ["Profiler() as p";
          "ResourceProfiler(0.25) as r"]
        [Expr "largest_delay.compute()";
         Blank];
     Expr "visualize([r, p]);"];
  Parsed None
    [Import "from dask.distributed import Client";
     Blank;
     Comment " Setup a local cluster.";
     Comment " By default this sets up 1 worker per core";
     Assign "client" "Client()"
        [];
     Expr "client"];
  Parsed None
    [StmtMagic "time" ""
        (Assign "_" "largest_delay.compute(get=client.get)" [])];
  Parsed None
    [StmtMagic "time" ""
        (Assign "_" "largest_delay.compute()  # This used to use threads by default, now it uses dask.distributed" [])];
  Parsed None
    [Comment " Number of flights";
     Assign "_" "len(df)"
        []];
  Parsed None
    [Comment " Number of non-cancelled flights";
     Assign "_" "len(df[~df.Cancelled])"
        []];
  Parsed None
    [Comment " Number of non-cancelled flights per-airport";
     Assign "_" "df[~df.Cancelled].groupby('Origin').Origin.count().compute()"
        []];
  Parsed None
    [Comment " Average departure delay from each airport?";
     Assign "_" "df[~df.Cancelled].groupby('Origin').DepDelay.mean().compute()"
        []];
  Parsed None
    [Comment " Average departure delay per day-of-week";
     Assign "_" "df.groupby(df.Date.dt.dayofweek).DepDelay.mean().compute()"
        []]
 ].

Definition parsed_notebooks : list (list parsed_cell) :=
  [machine_learning_code; schedulers_code].

(** All statements of a notebook, in the order of its cells. *)
Definition statements (cells : list parsed_cell) : list stmt :=
  flat_map body cells.

(** *** Names: what a statement binds and what it starts from *)

(** The names an import statement binds: [from M import a, b] binds [a] and
    [b]; [import M as a] binds [a]; [import P.Q] binds [P]. *)
Definition imported_names (line : string) : list string :=
  match drop_prefix "from " line with
  | Some r =>
      match split_at " import " r with
      | Some (_, names) => map first_word (split_char "," names)
      | None => []
      end
  | None =>
      match drop_prefix "import " line with
      | Some r =>
          match split_at " as " r with
          | Some (_, a) => [first_word a]
          | None => [first_word r]
          end
      | None => []
      end
  end.

(** The module an import statement names. *)
Definition imported_module (line : string) : string :=
  match drop_prefix "from " line with
  | Some r =>
      match split_at " " r with
      | Some (m, _) => m
      | None => r
      end
  | None =>
      match drop_prefix "import " line with
      | Some r =>
          match split_at " " r with
          | Some (m, _) => m
          | None => r
          end
      | None => ""
      end
  end.

(** The name an expression starts from: [dd] in [dd.read_csv(...)], [df] in
    [df[~df.Cancelled].DepDelay.max()], nothing for a literal. *)
Definition root (e : string) : string := take_ident e.

(** The name a [with] item binds by [as], if any. *)
Definition as_name (item : string) : list string :=
  match split_at " as " item with
  | Some (_, a) => [first_word a]
  | None => []
  end.

(** The statements of a block in the order in which they are reached: a
    [with] statement, then the statements of its body; a magic, then the
    statement it runs. *)
Fixpoint flatten_stmt (st : stmt) : list stmt :=
  st :: match st with
        | With _ inner => flat_map flatten_stmt inner
        | StmtMagic _ _ inner => flatten_stmt inner
        | _ => []
        end.

Definition flatten (b : list stmt) : list stmt := flat_map flatten_stmt b.

(** The names a statement binds to an object that comes from outside the
    notebook: the names of an import, the targets of an assignment, the [as]
    names of a [with].  (A [def] binds a function of the notebook's own; see
    [defs].) *)
Definition binds (st : stmt) : list string :=
  match st with
  | Import line => imported_names line
  | Assign targets _ _ => map first_word (split_char "," targets)
  | With items _ => flat_map as_name items
  | _ => []
  end.

(** The name a [def] statement binds. *)
Definition defines (st : stmt) : list string :=
  match st with
  | Def name _ _ => [name]
  | _ => []
  end.

(** The expressions a statement evaluates itself: the right-hand side of an
    assignment, an expression statement, the items of a [with]. *)
Definition starts (st : stmt) : list string :=
  match st with
  | Assign _ rhs _ => [rhs]
  | Expr e => [e]
  | With items _ => items
  | _ => []
  end.

(** The builtins of Python that the cells call by name. *)
Definition builtins : list string := ["len"; "list"; "map"].

(** An expression is a literal or starts from one of the names [env]. *)
Definition known (env : list string) (e : string) : bool :=
  String.eqb (root e) "" || mem (root e) env.

(** [resolve own env b]: reading the statements [b] in order, with the
    names [env] bound at the start, every expression a statement evaluates is
    a literal or starts from a name bound before it, unless it is one of the
    expressions [own]. *)
Fixpoint resolve (own env : list string) (b : list stmt) : bool :=
  match b with
  | [] => true
  | st :: rest =>
      forallb (fun e => mem e own || known env e) (starts st)
      && resolve own (binds st ++ env)%list rest
  end.

(** The names of the [def] statements and the modules of the import
    statements of a block, at any depth. *)
Definition defs (b : list stmt) : list string :=
  flat_map defines (flatten b).

Definition modules (b : list stmt) : list string :=
  flat_map (fun st => match st with Import line => [imported_module line] | _ => [] end)
    (flatten b).

(** The reading of "the repository implements no algorithm of its own" that
    the code can be held against: no notebook defines a function. *)
Definition no_function_of_its_own : Prop :=
  forall cells, In cells parsed_notebooks -> defs (statements cells) = [].

(** Induction over statements that reaches into the body of a [with]. *)
Fixpoint stmt_nested_ind (P : stmt -> Prop)
    (HBlank : P Blank)
    (HComment : forall text, P (Comment text))
    (HImport : forall line, P (Import line))
    (HAssign : forall targets rhs continuation, P (Assign targets rhs continuation))
    (HExpr : forall e, P (Expr e))
    (HLineMagic : forall name arg, P (LineMagic name arg))
    (HStmtMagic : forall name options st, P st -> P (StmtMagic name options st))
    (HDef : forall name params body, P (Def name params body))
    (HWith : forall items body, Forall P body -> P (With items body))
    (st : stmt) : P st :=
  match st with
  | Blank => HBlank
  | Comment text => HComment text
  | Import line => HImport line
  | Assign targets rhs continuation => HAssign targets rhs continuation
  | Expr e => HExpr e
  | LineMagic name arg => HLineMagic name arg
  | StmtMagic name options inner =>
      HStmtMagic name options inner
        (stmt_nested_ind P HBlank HComment HImport HAssign HExpr HLineMagic
           HStmtMagic HDef HWith inner)
  | Def name params body => HDef name params body
  | With items body =>
      HWith items body
        ((fix all (b : list stmt) : Forall P b :=
            match b with
            | [] => Forall_nil P
            | x :: rest =>
                Forall_cons x
                  (stmt_nested_ind P HBlank HComment HImport HAssign HExpr
                     HLineMagic HStmtMagic HDef HWith x)
                  (all rest)
            end) body)
  end.

(** *** Running a cell

    What a statement does is up to the libraries, IPython and the objects at
    hand; a [runtime] stands for all of them.  Python itself contributes the
    order of the statements, the end of a block at the first exception, and
    the protocol of [with]: the context manager is entered, the body runs,
    and the manager's exit is called with the exception the body raised, if
    any; the exception is raised again unless the exit asks to suppress it. *)

Section Semantics.
Variables State Exn : Type.

Inductive outcome :=
| Normal (s : State)
| Raised (e : Exn) (s : State).

(** What a context manager's exit does: it returns whether to suppress the
    exception, or raises itself. *)
Inductive exit_outcome :=
| Exit (suppress : bool) (s : State)
| ExitRaised (e : Exn) (s : State).

Record runtime := Runtime {
  run_import : string -> State -> outcome;
  run_assign : string -> string -> list string -> State -> outcome;
  run_expr : string -> State -> outcome;
  run_magic : string -> string -> State -> outcome;
  run_stmt_magic : string -> string -> (State -> outcome) -> State -> outcome;
  run_def : string -> string -> list string -> State -> State;
  ctx_enter : string -> State -> outcome;
  ctx_exit : string -> option Exn -> State -> exit_outcome;
  run_cell_magic : string -> (State -> outcome) -> State -> outcome
}.

Variable L : runtime.

(** [with item1, item2: body] is [with item1: with item2: body]. *)
Fixpoint with_items (items : list string) (run_body : State -> outcome)
    (s : State) : outcome :=
  match items with
  | [] => run_body s
  | item :: rest =>
      match ctx_enter L item s with
      | Raised e s1 => Raised e s1
      | Normal s1 =>
          match with_items rest run_body s1 with
          | Normal s2 =>
              match ctx_exit L item None s2 with
              | Exit _ s3 => Normal s3
              | ExitRaised e s3 => Raised e s3
              end
          | Raised e s2 =>
              match ctx_exit L item (Some e) s2 with
              | Exit true s3 => Normal s3
              | Exit false s3 => Raised e s3
              | ExitRaised e' s3 => Raised e' s3
              end
          end
      end
  end.

Fixpoint exec (st : stmt) (s : State) : outcome :=
  match st with
  | Blank | Comment _ => Normal s
  | Import line => run_import L line s
  | Assign targets rhs continuation => run_assign L targets rhs continuation s
  | Expr e => run_expr L e s
  | LineMagic name arg => run_magic L name arg s
  | StmtMagic name options inner => run_stmt_magic L name options (exec inner) s
  | Def name params body => Normal (run_def L name params body s)
  | With items body =>
      with_items items
        ((fix block (b : list stmt) (s : State) : outcome :=
           match b with
           | [] => Normal s
           | st :: rest =>
               match exec st s with
               | Normal s' => block rest s'
               | Raised e s' => Raised e s'
               end
           end) body)
        s
  end.

(** A block ends at the first statement that raises. *)
Fixpoint exec_block (b : list stmt) (s : State) : outcome :=
  match b with
  | [] => Normal s
  | st :: rest =>
      match exec st s with
      | Normal s' => exec_block rest s'
      | Raised e s' => Raised e s'
      end
  end.

Definition exec_cell (p : parsed_cell) (s : State) : outcome :=
  match cell_magic p with
  | None => exec_block (body p) s
  | Some m => run_cell_magic L m (exec_block (body p)) s
  end.

(** Entering the items of a [with] statement one after the other. *)
Fixpoint enter_all (items : list string) (s : State) : outcome :=
  match items with
  | [] => Normal s
  | item :: rest =>
      match ctx_enter L item s with
      | Normal s1 => enter_all rest s1
      | Raised e s1 => Raised e s1
      end
  end.

(** The exception [e] comes out of a call into the runtime. *)
Definition raised_by_runtime (e : Exn) : Prop :=
  (exists line s s', run_import L line s = Raised e s')
  \/ (exists t r c s s', run_assign L t r c s = Raised e s')
  \/ (exists x s s', run_expr L x s = Raised e s')
  \/ (exists n a s s', run_magic L n a s = Raised e s')
  \/ (exists n o b s s', run_stmt_magic L n o b s = Raised e s')
  \/ (exists item s s', ctx_enter L item s = Raised e s')
  \/ (exists item o s s', ctx_exit L item o s = ExitRaised e s')
  \/ (exists m b s s', run_cell_magic L m b s = Raised e s').

(** The exits of the runtime's context managers never suppress an
    exception and raise none of their own when they are given one, and its
    magics raise what the code they run raises. *)
Definition transparent : Prop :=
  (forall item e s, exists s', ctx_exit L item (Some e) s = Exit false s')
  /\ (forall n o b s e s1, b s = Raised e s1 ->
        exists s', run_stmt_magic L n o b s = Raised e s')
  /\ (forall m b s e s1, b s = Raised e s1 ->
        exists s', run_cell_magic L m b s = Raised e s').

(** A statement that runs no other statement. *)
Definition atomic (st : stmt) : bool :=
  match st with
  | With _ _ | StmtMagic _ _ _ => false
  | _ => true
  end.

(** [raises b s e]: running the block [b] from the state [s], a call into
    the runtime raises [e], at the top of the block, inside [with]
    statements or under a magic, and nothing has raised before it. *)
Inductive raises : list stmt -> State -> Exn -> Prop :=
| raises_now st rest s e s' :
    atomic st = true ->
    exec st s = Raised e s' ->
    raises (st :: rest) s e
| raises_magic name options inner rest s e :
    raises [inner] s e ->
    raises (StmtMagic name options inner :: rest) s e
| raises_enter items inner rest s e s' :
    enter_all items s = Raised e s' ->
    raises (With items inner :: rest) s e
| raises_inside items inner rest s s1 e :
    enter_all items s = Normal s1 ->
    raises inner s1 e ->
    raises (With items inner :: rest) s e
| raises_later st rest s s1 e :
    exec st s = Normal s1 ->
    raises rest s1 e ->
    raises (st :: rest) s e.

End Semantics.

Arguments Normal {State Exn} s.
Arguments Raised {State Exn} e s.
Arguments Exit {State Exn} suppress s.
Arguments ExitRaised {State Exn} e s.
Arguments run_import {State Exn} r _ _.
Arguments run_assign {State Exn} r _ _ _ _.
Arguments run_expr {State Exn} r _ _.
Arguments run_magic {State Exn} r _ _ _.
Arguments run_stmt_magic {State Exn} r _ _ _ _.
Arguments run_def {State Exn} r _ _ _ _.
Arguments ctx_enter {State Exn} r _ _.
Arguments ctx_exit {State Exn} r _ _ _.
Arguments run_cell_magic {State Exn} r _ _ _.
Arguments with_items {State Exn} L items run_body s.
Arguments exec {State Exn} L st s.
Arguments exec_block {State Exn} L b s.
Arguments exec_cell {State Exn} L p s.
Arguments enter_all {State Exn} L items s.
Arguments raised_by_runtime {State Exn} L e.
Arguments transparent {State Exn} L.
Arguments raises {State Exn} L b s e.

(** Proof step: the exception at hand is the one a call into the runtime
    returned, as a hypothesis of the context says. *)
Ltac from_runtime :=
  unfold raised_by_runtime;
  first
    [ left; solve [eauto 8]
    | right; left; solve [eauto 8]
    | right; right; left; solve [eauto 8]
    | right; right; right; left; solve [eauto 8]
    | right; right; right; right; left; solve [eauto 8]
    | right; right; right; right; right; left; solve [eauto 8]
    | right; right; right; right; right; right; left; solve [eauto 8]
    | right; right; right; right; right; right; right; solve [eauto 8] ].

(** A runtime to run cells against: the state is the log of what ran, every
    step succeeds, except that evaluating an expression statement [failing]
    raises its own text. *)
Definition logging (failing : string) : runtime (list string) string :=
  {| run_import := fun line s => Normal (List.app s [line]);
     run_assign := fun t r _ s => Normal (List.app s [t ++ " = " ++ r]);
     run_expr := fun e s =>
       if String.eqb e failing then Raised e s else Normal (List.app s [e]);
     run_magic := fun n a s => Normal (List.app s ["%" ++ n ++ " " ++ a]);
     run_stmt_magic := fun _ _ b s => b s;
     run_def := fun n _ _ s => List.app s ["def " ++ n];
     ctx_enter := fun item s => Normal (List.app s ["enter " ++ item]);
     ctx_exit := fun item _ s => Exit false (List.app s ["exit " ++ item]);
     run_cell_magic := fun _ b s => b s |}.

End Python.

(** ** The calls [fib] makes

    The same body once more, now recording every call: the run returns the
    value together with the arguments of all calls of [fib] made on the
    way, in the order in which they start.  [fib(n - 2)] runs to its end
    before [fib(n - 1)] starts. *)

Module Calls.
Import Fib.
Local Open Scope Z_scope.

Fixpoint fib_trace (depth : nat) (n : Z) : option (Z * list Z) :=
  match depth with
  | O => None
  | S d =>
      if n <? 2 then Some (n, [n])
      else match fib_trace d (n - 2) with
           | None => None
           | Some (a, ta) =>
               match fib_trace d (n - 1) with
               | None => None
               | Some (b, tb) => Some (a + b, n :: ta ++ tb)
               end
           end
  end.

(** [list(map(fib, xs))], the sequential cell: [list] pulls the results one
    by one, each pull calls [fib] on the next element of [xs], every call
    starting with the same number of free frames; a call that does not return
    ends the whole expression. *)
Fixpoint map_fib_trace (depth : nat) (xs : list Z) : option (list Z * list Z) :=
  match xs with
  | [] => Some ([], [])
  | x :: rest =>
      match fib_trace depth x with
      | None => None
      | Some (v, t) =>
          match map_fib_trace depth rest with
          | None => None
          | Some (vs, ts) => Some (v :: vs, t ++ ts)
          end
      end
  end.

End Calls.

(** ** Running the notebooks *)

Module Run.
Import Text Notebook Python.
Local Open Scope string_scope.

(** The cells of a notebook run from top to bottom; the run stops at the
    first cell that ends with an exception. *)
Fixpoint run_all {State Exn : Type} (L : runtime State Exn)
    (cells : list parsed_cell) (s : State) : outcome State Exn :=
  match cells with
  | [] => Normal s
  | p :: rest =>
      match exec_cell L p s with
      | Normal s' => run_all L rest s'
      | Raised e s' => Raised e s'
      end
  end.

(** The statements of a cell that run under nothing: the cell has no cell
    magic, and the statement stands at the top of the cell and is neither a
    [with] block nor a magic. *)
Definition bare (p : parsed_cell) : list stmt :=
  match cell_magic p with
  | Some _ => []
  | None => filter atomic (body p)
  end.

(** An expression that calls [grid_search.fit] or [largest_delay.compute]. *)
Definition fit_or_compute (e : string) : bool :=
  contains "grid_search.fit(" e || contains "largest_delay.compute(" e.

(** Propagation without a condition on the runtime: whenever a call into
    the runtime raises while a cell runs, the cell ends with that
    exception. *)
Definition exceptions_always_propagate : Prop :=
  forall (State Exn : Type) (L : runtime State Exn) cells p s e,
    In cells parsed_notebooks -> In p cells ->
    raises L (body p) s e ->
    exists s', exec_cell L p s = Raised e s'.

(** What a magic does that reports an exception instead of raising it: the
    traceback is shown and the magic returns. *)
Definition report (b : list string -> outcome (list string) string)
    (s : list string) : outcome (list string) string :=
  match b s with
  | Normal s' => Normal s'
  | Raised e s' => Normal (List.app s' ["traceback " ++ e])
  end.

(** The runtime [logging] with magics that report. *)
Definition reporting (failing : string) : runtime (list string) string :=
  {| run_import := run_import (logging failing);
     run_assign := run_assign (logging failing);
     run_expr := run_expr (logging failing);
     run_magic := run_magic (logging failing);
     run_stmt_magic := fun _ _ b s => report b s;
     run_def := run_def (logging failing);
     ctx_enter := ctx_enter (logging failing);
     ctx_exit := ctx_exit (logging failing);
     run_cell_magic := fun _ b s => report b s |}.

Fixpoint count_char (c : ascii) (s : string) : nat :=
  match s with
  | EmptyString => 0
  | String x r => (if Ascii.eqb x c then 1 else 0) + count_char c r
  end.

(** A line on which every quote that opens also closes, so that no string
    literal reaches from it into the next line. *)
Definition quote_balanced (l : string) : bool :=
  Nat.even (count_char (ascii_of_nat 34) l) && Nat.even (count_char "'" l).

(** [subseq xs ys]: the entries [xs] occur in [ys], in this order. *)
Fixpoint subseq (xs ys : list string) : bool :=
  match ys with
  | [] => match xs with [] => true | _ :: _ => false end
  | y :: ys' =>
      match xs with
      | [] => true
      | x :: xs' => if String.eqb x y then subseq xs' ys' else subseq xs ys'
      end
  end.

(** The statements [sts] stand one after the other at the top of a code
    cell of [nb]: the cell is the text of the parsed cell [p], no string
    literal runs across its lines, every statement of [p] is filed under its
    first word, and [sts] is a stretch of the body of [p]. *)
Definition states (nb : notebook) (cells : list parsed_cell) (sts : list stmt) : Prop :=
  exists c p pre post,
    In c nb /\ cell_type c = code
    /\ In p cells /\ unparse_cell p = source c
    /\ forallb quote_balanced (source c) = true
    /\ forallb classified (flatten (body p)) = true
    /\ body p = (pre ++ sts ++ post)%list.

End Run.

Import Fib Text Notebook Python Run.

(** * Properties of [fib] *)

Section FibFacts.
Local Open Scope Z_scope.

(** The body of [fib], as one equation. *)
Lemma fib_unfold (n : Z) :
  fib n = if n <? 2 then n else fib (n - 2) + fib (n - 1).
Proof.
  rewrite fib_equation_1. unfold fib_clause_1.
  destruct (Z_lt_dec n 2) as [Hlt | Hge]; destruct (Z.ltb_spec n 2); try lia; reflexivity.
Qed.

Lemma fib_small (n : Z) : n < 2 -> fib n = n.
Proof.
  intros Hn. rewrite fib_unfold.
  destruct (Z.ltb_spec n 2); [reflexivity | lia].
Qed.

Lemma fib_step (n : Z) : 2 <= n -> fib n = fib (n - 2) + fib (n - 1).
Proof.
  intros Hn. rewrite fib_unfold.
  destruct (Z.ltb_spec n 2); [lia | reflexivity].
Qed.

Lemma fibonacci_step (k : nat) :
  fibonacci (S (S k)) = fibonacci k + fibonacci (S k).
Proof. reflexivity. Qed.

(** Two consecutive values at once, so that the induction has both
    predecessors at hand. *)
Lemma fib_fibonacci_pair (k : nat) :
  fib (Z.of_nat k) = fibonacci k /\ fib (Z.of_nat (S k)) = fibonacci (S k).
Proof.
  induction k as [| k [IHk IHSk]].
  - split; [change (fib 0 = 0) | change (fib 1 = 1)]; apply fib_small; lia.
  - split; [exact IHSk |].
    rewrite fibonacci_step, fib_step by lia.
    replace (Z.of_nat (S (S k)) - 2) with (Z.of_nat k) by lia.
    replace (Z.of_nat (S (S k)) - 1) with (Z.of_nat (S k)) by lia.
    rewrite IHk, IHSk. reflexivity.
Qed.

Lemma frames_small (n : Z) : n < 2 -> frames n = 1%nat.
Proof. unfold frames. intros Hn. lia. Qed.

Lemma frames_step (n : Z) : 2 <= n -> frames n = S (frames (n - 1)).
Proof. unfold frames. intros Hn. lia. Qed.

Lemma frames_positive (n : Z) : (1 <= frames n)%nat.
Proof. unfold frames. lia. Qed.

(** With enough frames the bounded run returns what [fib] returns. *)
Lemma fib_fuel_enough (depth : nat) :
  forall n, (frames n <= depth)%nat -> fib_fuel depth n = Some (fib n).
Proof.
  induction depth as [| d IH]; intros n Hd.
  - pose proof (frames_positive n). lia.
  - cbn [fib_fuel]. rewrite (fib_unfold n).
    destruct (Z.ltb_spec n 2) as [Hlt | Hge]; [reflexivity |].
    rewrite frames_step in Hd by assumption.
    assert (Hle : (frames (n - 2) <= frames (n - 1))%nat) by (unfold frames; lia).
    rewrite (IH (n - 2)) by lia.
    rewrite (IH (n - 1)) by lia.
    reflexivity.
Qed.

(** With fewer frames it does not return. *)
Lemma fib_fuel_short (depth : nat) :
  forall n, (depth < frames n)%nat -> fib_fuel depth n = None.
Proof.
  induction depth as [| d IH]; intros n Hd; [reflexivity |].
  cbn [fib_fuel].
  destruct (Z.ltb_spec n 2) as [Hlt | Hge].
  - rewrite frames_small in Hd by assumption. lia.
  - rewrite frames_step in Hd by assumption.
    rewrite (IH (n - 1)) by lia.
    destruct (fib_fuel d (n - 2)); reflexivity.
Qed.

(** C2: on every natural number [fib] returns the Fibonacci number of that
    index: [fib 0 = 0], [fib 1 = 1], [fib n = fib (n - 2) + fib (n - 1)] for
    every [n >= 2], and [fib k] is the [k]-th term of the reference
    sequence [fibonacci] for every natural [k]. *)
Theorem fib_is_fibonacci :
  fib 0 = 0 /\ fib 1 = 1
  /\ (forall n : Z, 2 <= n -> fib n = fib (n - 2) + fib (n - 1))
  /\ (forall k : nat, fib (Z.of_nat k) = fibonacci k).
Proof.
  split; [| split; [| split]].
  - apply fib_small; lia.
  - apply fib_small; lia.
  - exact fib_step.
  - intros k. exact (proj1 (fib_fibonacci_pair k)).
Qed.

Lemma fib_is_fibonacci_witness :
  2 <= 34 /\ fib 34 = fib 32 + fib 33 /\ fib 34 = 5702887.
Proof.
  destruct fib_is_fibonacci as (_ & _ & Hstep & Hseq).
  split; [lia |]. split.
  - exact (Hstep 34 ltac:(lia)).
  - change (fib (Z.of_nat 34) = 5702887). rewrite Hseq. vm_compute. reflexivity.
Defined.

(** C9: [fib] terminates on every integer.  Below 2 a single frame returns
    at once; from 2 on both recursive calls are on arguments of smaller
    measure [Z.to_nat]; the call [fib(n)] returns the value [fib n] as soon as
    [frames n] frames are available, and with fewer it cannot return. *)
Theorem fib_terminates (n : Z) :
  (n < 2 -> fib_fuel 1 n = Some n)
  /\ (2 <= n ->
        (Z.to_nat (n - 2) < Z.to_nat n)%nat /\ (Z.to_nat (n - 1) < Z.to_nat n)%nat)
  /\ (forall depth, (frames n <= depth)%nat -> fib_fuel depth n = Some (fib n))
  /\ (forall depth, (depth < frames n)%nat -> fib_fuel depth n = None).
Proof.
  split; [| split; [| split]].
  - intros Hn. cbn [fib_fuel]. destruct (Z.ltb_spec n 2); [reflexivity | lia].
  - intros Hn. split; lia.
  - intros depth. apply fib_fuel_enough.
  - intros depth. apply fib_fuel_short.
Qed.

Lemma fib_terminates_witness :
  fib_fuel 1 (-7) = Some (-7)
  /\ fib_fuel 20 20 = Some 6765
  /\ fib_fuel 19 20 = None.
Proof.
  split; [| split].
  - apply (proj1 (fib_terminates (-7))). lia.
  - rewrite (proj1 (proj2 (proj2 (fib_terminates 20))) 20%nat) by (vm_compute; lia).
    change (Some (fib (Z.of_nat 20)) = Some 6765).
    rewrite (proj2 (fib_fibonacci_pair 19)). reflexivity.
  - apply (proj2 (proj2 (proj2 (fib_terminates 20)))). vm_compute. lia.
Defined.

(** C10: on every integer below 2, negative ones included, [fib] returns its
    argument, and the call returns with a single frame: there is no error
    branch. *)
Theorem fib_below_two (n : Z) :
  n < 2 -> fib n = n /\ forall depth, fib_fuel (S depth) n = Some n.
Proof.
  intros Hn. split; [apply fib_small; assumption |].
  intros depth. cbn [fib_fuel]. destruct (Z.ltb_spec n 2); [reflexivity | lia].
Qed.

Lemma fib_below_two_witness :
  fib (-7) = -7 /\ forall depth, fib_fuel (S depth) (-7) = Some (-7).
Proof. apply (fib_below_two (-7)). lia. Defined.

End FibFacts.

(** * The cell sequences *)

Section CellSequence.
Local Open Scope string_scope.

Lemma mem_In (x : string) (l : list string) : mem x l = true -> In x l.
Proof.
  unfold mem. intros H. apply existsb_exists in H as (y & Hy & Heq).
  apply String.eqb_eq in Heq. subst y. exact Hy.
Qed.

Lemma is_code_true (c : cell) : is_code c = true -> cell_type c = code.
Proof. unfold is_code. destruct (cell_type c); [discriminate | reflexivity]. Qed.

Lemma some_code_cell_has_sound (nb : notebook) (ls : list string) :
  some_code_cell_has nb ls = true -> demonstrates nb ls.
Proof.
  unfold some_code_cell_has, has_lines. intros H.
  apply existsb_exists in H as (c & Hc & Hhas).
  apply andb_prop in Hhas as [Hcode Hlines].
  exists c. split; [exact Hc |]. split; [apply is_code_true; exact Hcode |].
  intros l Hl. apply mem_In.
  rewrite forallb_forall in Hlines. apply Hlines. exact Hl.
Qed.

(** What [runs_within] has checked about a code cell at position [i]: a
    markdown cell stands before it within the list, or the list started in
    the middle of a run and the cells before [i] continue that run. *)
Lemma runs_within_sound (bound : nat) (cs : list cell) :
  forall run, runs_within bound run cs = true ->
  forall i c, nth_error cs i = Some c -> cell_type c = code ->
    (exists j m, j < i /\ i - j <= bound
       /\ nth_error cs j = Some m /\ cell_type m = markdown
       /\ forall k c', j < k < i -> nth_error cs k = Some c' -> cell_type c' = code)
    \/ (exists r, run = Some r /\ S (r + i) <= bound
          /\ forall k c', k < i -> nth_error cs k = Some c' -> cell_type c' = code).
Proof.
  induction cs as [| c0 rest IH]; intros run Hrun i c Hi Hc.
  - destruct i; discriminate.
  - cbn [runs_within] in Hrun. destruct (cell_type c0) eqn:Hk0.
    + (* a markdown cell starts a new run *)
      destruct i as [| i]; [cbn in Hi; congruence |].
      cbn [nth_error] in Hi. left.
      destruct (IH _ Hrun i c Hi Hc)
        as [(j & m & Hj & Hd & Hm & Hkm & Hbetween) | (r & Hr & Hb & Hbefore)].
      * exists (S j), m. repeat (split; [first [lia | assumption] |]).
        intros k c' Hk Hnth. destruct k as [| k]; [lia |].
        apply (Hbetween k); [lia | exact Hnth].
      * injection Hr as <-. exists 0, c0.
        split; [lia |]. split; [lia |]. split; [reflexivity |]. split; [exact Hk0 |].
        intros k c' Hk Hnth. destruct k as [| k]; [lia |].
        apply (Hbefore k); [lia | exact Hnth].
    + (* a code cell continues the run *)
      destruct run as [r |]; [| discriminate].
      apply andb_prop in Hrun as [Hle Hrest]. apply Nat.leb_le in Hle.
      destruct i as [| i].
      * right. exists r. split; [reflexivity |]. split; [lia |].
        intros k c' Hk. lia.
      * cbn [nth_error] in Hi.
        destruct (IH _ Hrest i c Hi Hc)
          as [(j & m & Hj & Hd & Hm & Hkm & Hbetween) | (r' & Hr & Hb & Hbefore)].
        -- left. exists (S j), m. repeat (split; [first [lia | assumption] |]).
           intros k c' Hk Hnth. destruct k as [| k]; [lia |].
           apply (Hbetween k); [lia | exact Hnth].
        -- injection Hr as <-. right. exists r.
           split; [reflexivity |]. split; [lia |].
           intros k c' Hk Hnth. destruct k as [| k].
           ++ cbn in Hnth. injection Hnth as <-. exact Hk0.
           ++ apply (Hbefore k); [lia | exact Hnth].
Qed.

(** C7, as stated, fails: in the machine learning notebook the code cell
    [y[:8]] (the seventh cell) comes right after another code cell. *)
Lemma code_cell_follows_code_cell :
  ~ (forall nb, In nb notebooks -> explained_immediately nb).
Proof.
  intros H.
  destruct (H machine_learning (or_introl eq_refl) 6 (Cell code ["y[:8]"]) eq_refl eq_refl)
    as (j & m & Hj & Hm & Hkind).
  injection Hj as <-. cbn in Hm. injection Hm as <-. discriminate.
Qed.

(** C7, amended: in every notebook each code cell is preceded by a markdown
    cell, right before it or with only code cells in between, and at most six
    positions back (so a run has at most six code cells). *)
Theorem code_cells_follow_an_explanation :
  forall nb, In nb notebooks ->
  forall i c, nth_error nb i = Some c -> cell_type c = code ->
  exists j m, j < i /\ i - j <= 6
    /\ nth_error nb j = Some m /\ cell_type m = markdown
    /\ forall k c', j < k < i -> nth_error nb k = Some c' -> cell_type c' = code.
Proof.
  intros nb Hnb i c Hi Hc.
  assert (Hruns : runs_within 6 None nb = true).
  { destruct Hnb as [<- | [<- | []]]; vm_compute; reflexivity. }
  destruct (runs_within_sound 6 nb None Hruns i c Hi Hc)
    as [Hfound | (r & Hr & _)]; [exact Hfound | discriminate].
Qed.

(** The bound is reached: the machine learning notebook has six code cells
    in a row, so five do not suffice. *)
Example six_code_cells_in_a_row :
  runs_within 5 None machine_learning = false
  /\ map cell_type (firstn 7 (skipn 24 machine_learning))
     = [markdown; code; code; code; code; code; code].
Proof. split; reflexivity. Qed.

Lemma code_cells_follow_an_explanation_witness :
  exists j m, j < 6 /\ 6 - j <= 6
    /\ nth_error machine_learning j = Some m /\ cell_type m = markdown
    /\ forall k c', j < k < 6 -> nth_error machine_learning k = Some c' ->
         cell_type c' = code.
Proof.
  apply (code_cells_follow_an_explanation machine_learning (or_introl eq_refl)
           6 (Cell code ["y[:8]"]) eq_refl eq_refl).
Defined.

(** The lines of the four activities are lines of code cells, and the
    process pool exercise is a markdown cell followed by an empty solution
    cell and a cell that loads the solution. *)
Lemma activity_lines_are_in_code_cells :
  (demonstrates machine_learning
     ["estimator = SVC(random_state=0)"; "estimator.fit(X, y)"]
   /\ demonstrates machine_learning
        ["grid_search = GridSearchCV(estimator, param_grid, verbose=2, cv=2)";
         "grid_search.fit(X, y)"])
  /\ (demonstrates schedulers
        ["thread_pool = concurrent.futures.ThreadPoolExecutor(max_workers=4)";
         "results = thread_pool.map(fib, [34, 34, 34, 34])";
         "%time _ = list(results)"]
      /\ exists i m,
           nth_error schedulers i = Some m
           /\ cell_type m = markdown
           /\ In "## Exercise: Parallelize `fib` with Processes" (source m)
           /\ markdown_mentions "concurrent.futures.ProcessPoolExecutor" m = true
           /\ nth_error schedulers (S i) = Some (Cell code ["# Your solution"; ""])
           /\ nth_error schedulers (S (S i))
              = Some (Cell code ["%load solutions/04-schedulers-fib-process.py"]))
  /\ (demonstrates schedulers ["largest_delay = df[~df.Cancelled].DepDelay.max()"]
      /\ demonstrates schedulers
           ["%time _ = largest_delay.compute()  # this uses threads by default"]
      /\ demonstrates schedulers
           ["%time _ = largest_delay.compute(get=dask.multiprocessing.get)  # this uses processes"]
      /\ demonstrates schedulers
           ["%time _ = largest_delay.compute(get=dask.get)  # This uses a single thread"]
      /\ demonstrates schedulers
           ["%time _ = largest_delay.compute(get=client.get)"])
  /\ demonstrates schedulers
       ["from dask.diagnostics import Profiler, ResourceProfiler, visualize";
        "with Profiler() as p, ResourceProfiler(0.25) as r:";
        "    largest_delay.compute()";
        "visualize([r, p]);"].
Proof.
  assert (Hcell : forall nb ls, some_code_cell_has nb ls = true -> demonstrates nb ls)
    by exact some_code_cell_has_sound.
  split; [split; apply Hcell; vm_compute; reflexivity |].
  split.
  { split; [apply Hcell; vm_compute; reflexivity |].
    exists 8. eexists. split; [reflexivity |]. cbn [cell_type source].
    split; [reflexivity |]. split; [left; reflexivity |].
    split; [vm_compute; reflexivity |]. split; reflexivity. }
  split; [repeat split; apply Hcell; vm_compute; reflexivity |].
  apply Hcell; vm_compute; reflexivity.
Qed.

End CellSequence.

(** * The code cells as programs *)

Section Parsing.
Local Open Scope string_scope.

(** Every code cell of both notebooks is, line for line, the text of its
    syntax tree: nothing of a cell is left unread, and no cell holds a
    statement outside the grammar of [stmt]. *)
Lemma code_cells_parse (nb : notebook) (cells : list parsed_cell) :
  In (nb, cells) (combine notebooks parsed_notebooks) ->
  map unparse_cell cells = map source (code_cells nb).
Proof.
  intros [Heq | [Heq | []]]; injection Heq as <- <-; vm_compute; reflexivity.
Qed.

(** Every statement of the syntax trees is filed under the constructor its
    first word asks for. *)
Lemma statements_classified (cells : list parsed_cell) (p : parsed_cell) :
  In cells parsed_notebooks -> In p cells ->
  forallb classified (flatten (body p)) = true.
Proof.
  intros Hcells Hp.
  assert (Hall : forallb (fun q => forallb classified (flatten (body q))) cells = true).
  { destruct Hcells as [<- | [<- | []]]; vm_compute; reflexivity. }
  rewrite forallb_forall in Hall. apply Hall. exact Hp.
Qed.

Lemma parsed_of_code_cell (nb : notebook) (c : cell) :
  In nb notebooks -> In c nb -> cell_type c = code ->
  exists cells p,
    In cells parsed_notebooks /\ In p cells /\ unparse_cell p = source c.
Proof.
  intros Hnb Hc Hcode.
  assert (Hin : In c (code_cells nb)).
  { apply filter_In. split; [exact Hc |]. unfold is_code. rewrite Hcode. reflexivity. }
  assert (Hpair : exists cells,
             In cells parsed_notebooks
             /\ In (nb, cells) (combine notebooks parsed_notebooks)).
  { destruct Hnb as [<- | [<- | []]].
    - exists machine_learning_code. split; left; reflexivity.
    - exists schedulers_code. split; right; left; reflexivity. }
  destruct Hpair as (cells & Hcells & Hpair).
  apply (in_map source) in Hin.
  rewrite <- (code_cells_parse nb cells Hpair) in Hin.
  apply in_map_iff in Hin as (p & Hp & Hpin).
  exists cells, p. split; [exact Hcells |]. split; assumption.
Qed.

Lemma resolve_sound (own : list string) (b : list stmt) :
  forall env, resolve own env b = true ->
  forall pre st post e, b = (pre ++ st :: post)%list -> In e (starts st) ->
    In e own \/ root e = "" \/ In (root e) env
    \/ exists st', In st' pre /\ In (root e) (binds st').
Proof.
  induction b as [| x rest IH]; intros env H pre st post e Hb He.
  - destruct pre; discriminate.
  - cbn [resolve] in H. apply andb_prop in H as [Hx Hrest].
    destruct pre as [| y pre]; cbn in Hb; injection Hb as -> ->.
    + rewrite forallb_forall in Hx. specialize (Hx e He).
      apply orb_prop in Hx as [Hown | Hknown]; [left; apply mem_In; exact Hown |].
      unfold known in Hknown. apply orb_prop in Hknown as [Hlit | Hmem].
      * right. left. apply String.eqb_eq. exact Hlit.
      * right. right. left. apply mem_In. exact Hmem.
    + destruct (IH _ Hrest pre st post e eq_refl He)
        as [Hown | [Hlit | [Hin | (st' & Hst' & Hbound)]]].
      * left. exact Hown.
      * right. left. exact Hlit.
      * apply in_app_or in Hin as [Hy | Henv].
        -- right. right. right. exists y. split; [left; reflexivity | exact Hy].
        -- right. right. left. exact Henv.
      * right. right. right. exists st'. split; [right; exact Hst' | exact Hbound].
Qed.

(** C1, as stated, fails: the schedulers notebook defines a function of its
    own, [fib], and [fib] has an input-output behaviour that is specified
    without reference to any library: [fib(n) = n] below 2, the sum of the
    two preceding values from 2 on, so [fib(34) = 5702887]. *)
Lemma fib_is_a_function_of_the_notebooks :
  ~ no_function_of_its_own
  /\ In "fib" (declared "def" schedulers)
  /\ (forall n : Z, fib n = if (n <? 2)%Z then n else (fib (n - 2) + fib (n - 1))%Z)
  /\ fib 34 = 5702887%Z.
Proof.
  split; [| split; [| split]].
  - intros H. specialize (H schedulers_code (or_intror (or_introl eq_refl))).
    vm_compute in H. discriminate.
  - vm_compute. left. reflexivity.
  - exact fib_unfold.
  - change (fib (Z.of_nat 34) = 5702887%Z).
    rewrite (proj1 (fib_fibonacci_pair 34)). vm_compute. reflexivity.
Qed.

(** C1, amended: [fib] is the one function the notebooks define, with the
    body the model of [fib] is written from, and it has a behaviour of its
    own; they define no class; the modules they import are the listed ones;
    and apart from the call [fib(34)], every expression their statements
    evaluate is a literal or starts from a builtin or from a name bound by
    an import, an assignment or a [with]. *)
Theorem fib_is_the_only_definition :
  map (declared "def") notebooks = [[]; ["fib"]]
  /\ map (declared "class") notebooks = [[]; []]
  /\ map (fun cells => defs (statements cells)) parsed_notebooks = [[]; ["fib"]]
  /\ In (Def "fib" "n"
           [("    " ++ dq ++ dq ++ dq ++ "Compute the `n`th fibonnaci number.");
            "    ";
            "    This is a deliberatly slow, CPU intensive implemenation.";
            ("    " ++ dq ++ dq ++ dq);
            "    if n < 2:";
            "        return n";
            "    return fib(n - 2) + fib(n - 1)"])
        (statements schedulers_code)
  /\ (forall n : Z, fib n = if (n <? 2)%Z then n else (fib (n - 2) + fib (n - 1))%Z)
  /\ map (fun cells => modules (statements cells)) parsed_notebooks
     = [["sklearn.datasets"; "sklearn.svm"; "sklearn.model_selection";
         "pycon_utils"; "dask_ml.joblib"; "dask.distributed"; "sklearn.externals"];
        ["concurrent.futures"; "dask"; "dask.multiprocessing"; "dask.dataframe";
         "pandas"; "glob"; "os"; "multiprocessing"; "dask.diagnostics";
         "dask.distributed"]]
  /\ map (fun cells => resolve ["fib(34)"] builtins (flatten (statements cells)))
       parsed_notebooks
     = [true; true].
Proof.
  split; [vm_compute; reflexivity |].
  split; [vm_compute; reflexivity |].
  split; [vm_compute; reflexivity |].
  split; [vm_compute; tauto |].
  split; [exact fib_unfold |].
  split; vm_compute; reflexivity.
Qed.



End Parsing.

(** * Exceptions *)

Section Propagation.
Context {State Exn : Type} (L : runtime State Exn).

Lemma with_items_ext (items : list string) (f g : State -> outcome State Exn) :
  (forall s, f s = g s) ->
  forall s, with_items L items f s = with_items L items g s.
Proof.
  intros Hfg. induction items as [| item rest IH]; intros s; cbn [with_items].
  - apply Hfg.
  - destruct (ctx_enter L item s) as [s1 | e s1]; [| reflexivity].
    rewrite IH. reflexivity.
Qed.

(** A [with] statement runs its body as a block. *)
Lemma exec_With (items : list string) (inner : list stmt) (s : State) :
  exec L (With items inner) s = with_items L items (exec_block L inner) s.
Proof.
  cbn [exec]. apply with_items_ext. clear s.
  induction inner as [| st rest IH]; intros s; [reflexivity |].
  cbn [exec_block]. destruct (exec L st s) as [s' | e s']; [apply IH | reflexivity].
Qed.

(** The first statement that raises ends the block: what follows it does not
    run, and the exception and the state are the ones it left. *)
Lemma exec_block_first_raise (pre post : list stmt) (st : stmt) :
  forall s s1 e s2,
    exec_block L pre s = Normal s1 ->
    exec L st s1 = Raised e s2 ->
    exec_block L (pre ++ st :: post) s = Raised e s2.
Proof.
  induction pre as [| x pre IH]; intros s s1 e s2 Hpre Hst; cbn in *.
  - injection Hpre as ->. rewrite Hst. reflexivity.
  - destruct (exec L x s) as [s' | e' s']; [| discriminate].
    apply (IH s' s1 e s2 Hpre Hst).
Qed.

Lemma with_items_origin (items : list string) (f : State -> outcome State Exn) :
  (forall s e s', f s = Raised e s' -> raised_by_runtime L e) ->
  forall s e s', with_items L items f s = Raised e s' -> raised_by_runtime L e.
Proof.
  intros Hf. induction items as [| item rest IH]; intros s e s' H; cbn [with_items] in H.
  - apply (Hf s e s' H).
  - destruct (ctx_enter L item s) as [s1 | e1 s1] eqn:Henter.
    + destruct (with_items L rest f s1) as [s2 | e2 s2] eqn:Hrest.
      * destruct (ctx_exit L item None s2) as [b s3 | e3 s3] eqn:Hexit;
          [discriminate |].
        injection H as <- <-. from_runtime.
      * destruct (ctx_exit L item (Some e2) s2) as [[|] s3 | e3 s3] eqn:Hexit.
        -- discriminate.
        -- injection H as <- <-. apply (IH s1 e2 s2 Hrest).
        -- injection H as <- <-. from_runtime.
    + injection H as <- <-. from_runtime.
Qed.

Lemma exec_block_origin (b : list stmt) :
  Forall (fun st => forall s e s', exec L st s = Raised e s' -> raised_by_runtime L e) b ->
  forall s e s', exec_block L b s = Raised e s' -> raised_by_runtime L e.
Proof.
  induction 1 as [| st rest Hst _ IH]; intros s e s' H; cbn [exec_block] in H.
  - discriminate.
  - destruct (exec L st s) as [s1 | e1 s1] eqn:Hexec.
    + apply (IH s1 e s' H).
    + injection H as <- <-. apply (Hst s e1 s1 Hexec).
Qed.

(** No statement raises of its own: an exception that leaves a statement was
    raised by a call into the runtime. *)
Lemma exec_origin (st : stmt) :
  forall s e s', exec L st s = Raised e s' -> raised_by_runtime L e.
Proof.
  induction st
    as [| text | line | targets rhs continuation | x | name arg
        | name options inner IHinner | name params defbody | items inner IHinner]
    using stmt_nested_ind;
    intros s exn s' Hexec;
    try (cbn [exec] in Hexec; first [discriminate | from_runtime]).
  rewrite exec_With in Hexec.
  apply (with_items_origin items (exec_block L inner)
           (exec_block_origin inner IHinner) s exn s' Hexec).
Qed.

Lemma exec_cell_origin (p : parsed_cell) :
  forall s e s', exec_cell L p s = Raised e s' -> raised_by_runtime L e.
Proof.
  intros s e s' H. unfold exec_cell in H.
  destruct (cell_magic p) as [m |].
  - from_runtime.
  - apply (exec_block_origin (body p)) in H; [exact H |].
    apply Forall_forall. intros st _. apply exec_origin.
Qed.

Hypothesis Htransparent : transparent L.

Lemma with_items_enter_raises (items : list string) (f : State -> outcome State Exn) :
  forall s e s1, enter_all L items s = Raised e s1 ->
  exists s', with_items L items f s = Raised e s'.
Proof.
  induction items as [| item rest IH]; intros s e s1 H; cbn in *.
  - discriminate.
  - destruct (ctx_enter L item s) as [s0 | e0 s0].
    + destruct (IH s0 e s1 H) as (s2 & ->).
      destruct (proj1 Htransparent item e s2) as (s3 & ->). exists s3. reflexivity.
    + injection H as <- <-. exists s0. reflexivity.
Qed.

Lemma with_items_body_raises (items : list string) (f : State -> outcome State Exn) :
  forall s s1 e s2, enter_all L items s = Normal s1 -> f s1 = Raised e s2 ->
  exists s', with_items L items f s = Raised e s'.
Proof.
  induction items as [| item rest IH]; intros s s1 e s2 H Hf; cbn in *.
  - injection H as ->. exists s2. exact Hf.
  - destruct (ctx_enter L item s) as [s0 | e0 s0]; [| discriminate].
    destruct (IH s0 s1 e s2 H Hf) as (s3 & ->).
    destruct (proj1 Htransparent item e s3) as (s4 & ->). exists s4. reflexivity.
Qed.

(** Under a transparent runtime an exception raised at any depth of a block
    leaves the block. *)
Lemma raises_leave_the_block (b : list stmt) (s : State) (e : Exn) :
  raises L b s e -> exists s', exec_block L b s = Raised e s'.
Proof.
  induction 1 as [st rest s e s' Hatom Hexec
                 | name options inner rest s e Hinner IH
                 | items inner rest s e s' Henter
                 | items inner rest s s1 e Henter Hinner IH
                 | st rest s s1 e Hexec Hrest IH]; cbn [exec_block].
  - rewrite Hexec. exists s'. reflexivity.
  - destruct IH as (s1 & Hs1). cbn [exec_block] in Hs1. cbn [exec].
    assert (Hrun : exec L inner s = Raised e s1).
    { destruct (exec L inner s) as [s2 | e2 s2]; [discriminate | exact Hs1]. }
    destruct (proj1 (proj2 Htransparent) name options (exec L inner) s e s1 Hrun)
      as (s2 & ->).
    exists s2. reflexivity.
  - rewrite exec_With.
    destruct (with_items_enter_raises items (exec_block L inner) s e s' Henter)
      as (s2 & ->).
    exists s2. reflexivity.
  - rewrite exec_With. destruct IH as (s2 & Hs2).
    destruct (with_items_body_raises items (exec_block L inner) s s1 e s2 Henter Hs2)
      as (s3 & ->).
    exists s3. reflexivity.
  - rewrite Hexec. exact IH.
Qed.

Lemma raises_leave_the_cell (p : parsed_cell) (s : State) (e : Exn) :
  raises L (body p) s e -> exists s', exec_cell L p s = Raised e s'.
Proof.
  intros H. destruct (raises_leave_the_block (body p) s e H) as (s1 & Hs1).
  unfold exec_cell. destruct (cell_magic p) as [m |].
  - apply (proj2 (proj2 Htransparent) m (exec_block L (body p)) s e s1 Hs1).
  - exists s1. exact Hs1.
Qed.

End Propagation.

Section Handlers.
Local Open Scope string_scope.

Lemma no_handler_in_code_cells (nb : notebook) :
  In nb notebooks -> forallb (fun l => negb (opens_handler l)) (code_lines nb) = true.
Proof. intros [<- | [<- | []]]; vm_compute; reflexivity. Qed.

Lemma logging_transparent (failing : string) : transparent (logging failing).
Proof.
  split; [| split].
  - intros item e s. eexists. reflexivity.
  - intros n o b s e s1 Hb. exists s1. exact Hb.
  - intros m b s e s1 Hb. exists s1. exact Hb.
Qed.

Lemma bare_calls (cells : list parsed_cell) (p : parsed_cell) :
  In cells parsed_notebooks -> In p cells ->
  forall st e, In st (bare p) -> In e (starts st) -> fit_or_compute e = false.
Proof.
  intros Hcells Hp st e Hst He.
  assert (Hall : forallb
                   (fun q => forallb
                      (fun x => forallb (fun y => negb (fit_or_compute y)) (starts x))
                      (bare q))
                   cells = true).
  { destruct Hcells as [<- | [<- | []]]; vm_compute; reflexivity. }
  rewrite forallb_forall in Hall. specialize (Hall p Hp).
  rewrite forallb_forall in Hall. specialize (Hall st Hst).
  rewrite forallb_forall in Hall. specialize (Hall e He).
  apply negb_true_iff. exact Hall.
Qed.




(** The cell of the witness, run: the failing [fit] inside the [with] block
    inside the [%%time] magic ends the cell with the exception of [fit]. *)
Example failing_fit_ends_the_cell :
  exec_cell (logging "grid_search.fit(X, y)")
    (Parsed (Some "time")
       [Blank;
        With ["joblib.parallel_backend('dask', scatter=[X, y])"]
          [Expr "grid_search.fit(X, y)"]])
    []
  = Raised "grid_search.fit(X, y)"
      ["enter joblib.parallel_backend('dask', scatter=[X, y])";
       "exit joblib.parallel_backend('dask', scatter=[X, y])"].
Proof. reflexivity. Qed.

End Handlers.

(** * The cost and the growth of [fib] *)

Section FibGrowth.
Import Calls.
Local Open Scope Z_scope.

Lemma fibonacci_nonneg_pair (k : nat) : 0 <= fibonacci k /\ 0 <= fibonacci (S k).
Proof.
  induction k as [| k [IHk IHSk]]; [cbn; lia |].
  split; [exact IHSk |]. rewrite fibonacci_step. lia.
Qed.

Lemma fib_of_nat (n : Z) : 0 <= n -> fib n = fibonacci (Z.to_nat n).
Proof.
  intros Hn. rewrite <- (proj1 (fib_fibonacci_pair (Z.to_nat n))).
  rewrite Z2Nat.id by assumption. reflexivity.
Qed.

Lemma fib_nonneg (n : Z) : 0 <= n -> 0 <= fib n.
Proof.
  intros Hn. rewrite fib_of_nat by assumption.
  apply (proj1 (fibonacci_nonneg_pair _)).
Qed.

Lemma fib_pos (n : Z) : 1 <= n -> 1 <= fib n.
Proof.
  intros Hn. pattern n. apply (Zlt_lower_bound_ind _ 1); [| exact Hn].
  clear n Hn. intros n IH Hn.
  destruct (Z.eq_dec n 1) as [-> | Hne]; [rewrite fib_small; lia |].
  rewrite fib_step by lia.
  pose proof (fib_nonneg (n - 2) ltac:(lia)).
  pose proof (IH (n - 1) ltac:(lia)). lia.
Qed.

Lemma fib_succ_le (n : Z) : fib n <= fib (n + 1).
Proof.
  destruct (Z_lt_dec n 1) as [Hlt | Hge].
  - rewrite !fib_small by lia. lia.
  - rewrite (fib_step (n + 1)) by lia.
    replace (n + 1 - 2) with (n - 1) by lia.
    replace (n + 1 - 1) with n by lia.
    pose proof (fib_nonneg (n - 1) ltac:(lia)). lia.
Qed.

Lemma fib_succ_lt (n : Z) : 2 <= n -> fib n < fib (n + 1).
Proof.
  intros Hn. rewrite (fib_step (n + 1)) by lia.
  replace (n + 1 - 2) with (n - 1) by lia.
  replace (n + 1 - 1) with n by lia.
  pose proof (fib_pos (n - 1) ltac:(lia)). lia.
Qed.

Lemma fib_le (m n : Z) : m <= n -> fib m <= fib n.
Proof.
  intros Hmn. pattern n. apply (Zlt_lower_bound_ind _ m); [| exact Hmn].
  clear n Hmn. intros n IH Hn.
  destruct (Z.eq_dec n m) as [-> | Hne]; [lia |].
  pose proof (IH (n - 1) ltac:(lia)) as Hprev.
  pose proof (fib_succ_le (n - 1)) as Hstep.
  replace (n - 1 + 1) with n in Hstep by lia. lia.
Qed.

Lemma fib_lt (m n : Z) : 2 <= m -> m < n -> fib m < fib n.
Proof.
  intros Hm Hmn.
  pose proof (fib_succ_lt m Hm). pose proof (fib_le (m + 1) n ltac:(lia)). lia.
Qed.

(** Between two steps the value at least doubles, and in one step it at
    most doubles. *)
Lemma fib_bounds (n : Z) :
  1 <= n -> 2 ^ ((n - 1) / 2) <= fib n <= 2 ^ (n - 1).
Proof.
  intros Hn. pattern n. apply (Zlt_lower_bound_ind _ 1); [| exact Hn].
  clear n Hn. intros n IH Hn.
  destruct (Z_lt_dec n 3) as [Hsmall | Hbig].
  - assert (Hcases : n = 1 \/ n = 2) by lia.
    destruct Hcases as [-> | ->]; vm_compute; split; discriminate.
  - rewrite fib_step by lia.
    pose proof (IH (n - 2) ltac:(lia)) as [Hlow2 Hup2].
    pose proof (IH (n - 1) ltac:(lia)) as [Hlow1 Hup1].
    pose proof (fib_le (n - 2) (n - 1) ltac:(lia)) as Hmono.
    assert (Hdiv : (n - 1) / 2 = (n - 2 - 1) / 2 + 1).
    { replace (n - 1) with (n - 2 - 1 + 1 * 2) by lia.
      rewrite Z.div_add by lia. reflexivity. }
    assert (Hpow_low : 2 ^ ((n - 1) / 2) = 2 * 2 ^ ((n - 2 - 1) / 2)).
    { rewrite Hdiv. rewrite Z.pow_add_r; [lia | | lia].
      apply Z.div_pos; lia. }
    assert (Hpow_up1 : 2 ^ (n - 1) = 2 * 2 ^ (n - 1 - 1)).
    { replace (n - 1) with (n - 1 - 1 + 1) at 1 by lia.
      rewrite Z.pow_add_r by lia. lia. }
    assert (Hpow_up2 : 2 ^ (n - 1 - 1) = 2 * 2 ^ (n - 2 - 1)).
    { replace (n - 1 - 1) with (n - 2 - 1 + 1) at 1 by lia.
      rewrite Z.pow_add_r by lia. lia. }
    assert (Hpos : 0 < 2 ^ (n - 2 - 1)) by (apply Z.pow_pos_nonneg; lia).
    lia.
Qed.

(** The number of calls made by [fib(n)], in closed form. *)
Lemma calls_step (n : Z) :
  2 <= n ->
  1 + (2 * fib (n - 2 + 1) - 1) + (2 * fib (n - 1 + 1) - 1) = 2 * fib (n + 1) - 1.
Proof.
  intros Hn. rewrite (fib_step (n + 1)) by lia.
  replace (n - 2 + 1) with (n + 1 - 2) by lia.
  replace (n - 1 + 1) with (n + 1 - 1) by lia. lia.
Qed.

(** Everything the recording run shows about a call with enough frames. *)
Lemma fib_trace_enough (depth : nat) :
  forall n, (frames n <= depth)%nat ->
  exists tr,
    fib_trace depth n = Some (fib n, tr)
    /\ hd_error tr = Some n
    /\ (n < 2 -> tr = [n])
    /\ (0 <= n ->
        Z.of_nat (List.length tr) = 2 * fib (n + 1) - 1
        /\ Forall (fun a => 0 <= a <= n) tr
        /\ Z.of_nat (count_occ Z.eq_dec tr 1) = fib n).
Proof.
  induction depth as [| d IH]; intros n Hd.
  - pose proof (frames_positive n). lia.
  - cbn [fib_trace]. rewrite (fib_unfold n).
    destruct (Z.ltb_spec n 2) as [Hlt | Hge].
    + exists [n]. split; [reflexivity |]. split; [reflexivity |].
      split; [reflexivity |]. intros Hn.
      assert (Hcases : n = 0 \/ n = 1) by lia.
      destruct Hcases as [-> | ->]; (split; [reflexivity |]);
        (split; [constructor; [lia | constructor] | reflexivity]).
    + rewrite frames_step in Hd by assumption.
      assert (Hle : (frames (n - 2) <= frames (n - 1))%nat) by (unfold frames; lia).
      destruct (IH (n - 2) ltac:(lia)) as (ta & -> & _ & _ & Ha).
      destruct (IH (n - 1) ltac:(lia)) as (tb & -> & _ & _ & Hb).
      destruct (Ha ltac:(lia)) as (Hla & Hra & Hca).
      destruct (Hb ltac:(lia)) as (Hlb & Hrb & Hcb).
      exists (n :: ta ++ tb). split; [reflexivity |]. split; [reflexivity |].
      split; [lia |]. intros _. split; [| split].
      * cbn [List.length]. rewrite length_app, Nat2Z.inj_succ, Nat2Z.inj_add, Hla, Hlb.
        pose proof (calls_step n Hge). lia.
      * constructor; [lia |]. apply Forall_app. split.
        -- apply (Forall_impl _ (P := fun a => 0 <= a <= n - 2)); [intros; lia | exact Hra].
        -- apply (Forall_impl _ (P := fun a => 0 <= a <= n - 1)); [intros; lia | exact Hrb].
      * cbn [count_occ]. destruct (Z.eq_dec n 1) as [Heq | _]; [lia |].
        rewrite count_occ_app, Nat2Z.inj_add, Hca, Hcb. reflexivity.
Qed.

Lemma fib_trace_short (depth : nat) :
  forall n, (depth < frames n)%nat -> fib_trace depth n = None.
Proof.
  induction depth as [| d IH]; intros n Hd; [reflexivity |].
  cbn [fib_trace].
  destruct (Z.ltb_spec n 2) as [Hlt | Hge].
  - rewrite frames_small in Hd by assumption. lia.
  - rewrite frames_step in Hd by assumption.
    rewrite (IH (n - 1)) by lia.
    destruct (fib_trace d (n - 2)) as [[a ta] |]; reflexivity.
Qed.

(** X1: a call [fib(n)] with [n >= 0] that has enough frames returns
    [fib n] after exactly [2 * fib (n + 1) - 1] calls of [fib], itself
    included. *)
Theorem fib_call_count (depth : nat) (n : Z) :
  0 <= n -> (frames n <= depth)%nat ->
  exists tr,
    fib_trace depth n = Some (fib n, tr)
    /\ Z.of_nat (List.length tr) = 2 * fib (n + 1) - 1.
Proof.
  intros Hn Hd.
  destruct (fib_trace_enough depth n Hd) as (tr & Hrun & _ & _ & Hnonneg).
  exists tr. split; [exact Hrun |]. exact (proj1 (Hnonneg Hn)).
Qed.

Lemma fib_call_count_witness :
  exists tr, fib_trace 10 10 = Some (55, tr) /\ Z.of_nat (List.length tr) = 177.
Proof.
  exact (fib_call_count 10 10 ltac:(lia) ltac:(vm_compute; lia)).
Defined.

(** X2: the calls that [fib(n)] makes start with [n] itself; below 2 it
    is the only call, and for [n >= 0] every call has an argument between 0
    and [n]: the recursion never reaches a negative argument. *)
Theorem fib_calls_stay_in_range (depth : nat) (n : Z) :
  (frames n <= depth)%nat ->
  exists tr,
    fib_trace depth n = Some (fib n, tr)
    /\ hd_error tr = Some n
    /\ (n < 2 -> tr = [n])
    /\ (0 <= n -> Forall (fun a => 0 <= a <= n) tr).
Proof.
  intros Hd.
  destruct (fib_trace_enough depth n Hd) as (tr & Hrun & Hhd & Hone & Hnonneg).
  exists tr. split; [exact Hrun |]. split; [exact Hhd |]. split; [exact Hone |].
  intros Hn. exact (proj1 (proj2 (Hnonneg Hn))).
Qed.

Lemma fib_calls_stay_in_range_witness :
  exists tr,
    fib_trace 4 4 = Some (3, tr)
    /\ hd_error tr = Some 4
    /\ (4 < 2 -> tr = [4])
    /\ (0 <= 4 -> Forall (fun a => 0 <= a <= 4) tr).
Proof.
  exact (fib_calls_stay_in_range 4 4 ltac:(vm_compute; lia)).
Defined.

(** X3: for [n >= 0] the value [fib(n)] is the number of calls [fib(1)]
    made on the way: the result is added up from ones. *)
Theorem fib_counts_its_base_calls (depth : nat) (n : Z) :
  0 <= n -> (frames n <= depth)%nat ->
  exists tr,
    fib_trace depth n = Some (fib n, tr)
    /\ Z.of_nat (count_occ Z.eq_dec tr 1) = fib n.
Proof.
  intros Hn Hd.
  destruct (fib_trace_enough depth n Hd) as (tr & Hrun & _ & _ & Hnonneg).
  exists tr. split; [exact Hrun |]. exact (proj2 (proj2 (Hnonneg Hn))).
Qed.

Lemma fib_counts_its_base_calls_witness :
  exists tr,
    fib_trace 10 10 = Some (55, tr) /\ Z.of_nat (count_occ Z.eq_dec tr 1) = 55.
Proof.
  exact (fib_counts_its_base_calls 10 10 ltac:(lia) ltac:(vm_compute; lia)).
Defined.

(** X4: [fib] keeps the order of its arguments on all integers, and from
    2 on it is strictly increasing. *)
Theorem fib_monotone (m n : Z) :
  m <= n -> fib m <= fib n /\ (2 <= m -> m < n -> fib m < fib n).
Proof.
  intros Hmn. split; [apply fib_le; exact Hmn |].
  intros Hm Hlt. apply fib_lt; assumption.
Qed.

Lemma fib_monotone_witness :
  fib (-3) <= fib 5 /\ (2 <= -3 -> -3 < 5 -> fib (-3) < fib 5).
Proof. apply (fib_monotone (-3) 5). lia. Defined.

(** X5: [fib] keeps the sign of its argument: the result is negative
    exactly for a negative argument and zero exactly at zero. *)
Theorem fib_sign (n : Z) :
  (fib n < 0 <-> n < 0) /\ (fib n = 0 <-> n = 0).
Proof.
  destruct (Z_lt_dec n 1) as [Hlt | Hge].
  - rewrite fib_small by lia. lia.
  - pose proof (fib_pos n ltac:(lia)). lia.
Qed.

(** X6: from 1 on the value grows exponentially: it at least doubles
    every two steps and at most doubles every step. *)
Theorem fib_grows_exponentially (n : Z) :
  1 <= n -> 2 ^ ((n - 1) / 2) <= fib n <= 2 ^ (n - 1).
Proof. exact (fib_bounds n). Qed.

Lemma fib_grows_exponentially_witness :
  2 ^ ((34 - 1) / 2) <= fib 34 <= 2 ^ (34 - 1).
Proof. apply (fib_grows_exponentially 34). lia. Defined.

(** X7: the number of calls of [fib(n)], [n >= 0], is exponential in [n]:
    at least [2 ^ (n / 2)] and less than [2 ^ (n + 1)]. *)
Theorem fib_call_count_is_exponential (depth : nat) (n : Z) :
  0 <= n -> (frames n <= depth)%nat ->
  exists tr,
    fib_trace depth n = Some (fib n, tr)
    /\ 2 ^ (n / 2) <= Z.of_nat (List.length tr) < 2 ^ (n + 1).
Proof.
  intros Hn Hd.
  destruct (fib_trace_enough depth n Hd) as (tr & Hrun & _ & _ & Hnonneg).
  exists tr. split; [exact Hrun |].
  rewrite (proj1 (Hnonneg Hn)).
  pose proof (fib_bounds (n + 1) ltac:(lia)) as [Hlow Hup].
  replace (n + 1 - 1) with n in Hlow, Hup by lia.
  assert (Hone : 0 < 2 ^ (n / 2)).
  { apply Z.pow_pos_nonneg; [lia |]. apply Z.div_pos; lia. }
  rewrite (Z.pow_add_r 2 n 1) by lia. lia.
Qed.

Lemma fib_call_count_is_exponential_witness :
  exists tr,
    fib_trace 34 34 = Some (fib 34, tr)
    /\ 2 ^ (34 / 2) <= Z.of_nat (List.length tr) < 2 ^ (34 + 1).
Proof.
  exact (fib_call_count_is_exponential 34 34 ltac:(lia) ltac:(vm_compute; lia)).
Defined.

(** X8: [list(map(fib, xs))] returns the values of [fib] on the elements
    of [xs] in their order, and the calls it makes are those of the single
    calls one after the other, provided every element has enough frames; if
    some element has too few, the expression does not return. *)
Theorem sequential_map_adds_up (depth : nat) (xs : list Z) :
  (Forall (fun x => (frames x <= depth)%nat) xs ->
   exists ts,
     Forall2 (fun x t => fib_trace depth x = Some (fib x, t)) xs ts
     /\ map_fib_trace depth xs = Some (map fib xs, List.concat ts))
  /\ (Exists (fun x => (depth < frames x)%nat) xs ->
      map_fib_trace depth xs = None).
Proof.
  split.
  - induction 1 as [| x rest Hx _ (ts & Hall & Hrun)].
    + exists []. split; [constructor | reflexivity].
    + destruct (fib_trace_enough depth x Hx) as (t & Ht & _).
      exists (t :: ts). split; [constructor; assumption |].
      cbn [map_fib_trace map List.concat]. rewrite Ht, Hrun. reflexivity.
  - induction 1 as [x rest Hx | x rest _ IH]; cbn [map_fib_trace].
    + rewrite (fib_trace_short depth x Hx). reflexivity.
    + rewrite IH. destruct (fib_trace depth x) as [[v t] |]; reflexivity.
Qed.

Lemma sequential_map_adds_up_witness :
  (exists ts,
     Forall2 (fun x t => fib_trace 34 x = Some (fib x, t)) [34; 34; 34; 34] ts
     /\ map_fib_trace 34 [34; 34; 34; 34] = Some (map fib [34; 34; 34; 34], List.concat ts))
  /\ map_fib_trace 33 [5; 34] = None.
Proof.
  split.
  - apply (proj1 (sequential_map_adds_up 34 [34; 34; 34; 34])).
    repeat constructor; vm_compute; lia.
  - apply (proj2 (sequential_map_adds_up 33 [5; 34])).
    right. left. vm_compute. lia.
Defined.

End FibGrowth.

(** * What the code cells do *)

Section Activities.
Local Open Scope string_scope.

(** Cell number [j] of the notebook [nb] is the text of the parsed cell
    number [i] of [cells], which has the statements [sts] after its first
    [k] statements. *)
Ltac show_states nb j cells i k n :=
  let c := constr:(nth j nb (Cell markdown [])) in
  let p := constr:(nth i cells (Parsed None [])) in
  exists c, p, (firstn k (body p)), (skipn (k + n) (body p));
  split; [apply nth_In; vm_compute; lia |];
  split; [reflexivity |];
  split; [apply nth_In; vm_compute; lia |];
  split; [vm_compute; reflexivity |];
  split; [vm_compute; reflexivity |];
  split; vm_compute; reflexivity.


End Activities.
